(** * Announcements router of the High School Management System API

    A shallow embedding of [src/backend/routers/announcements.py]: the four
    request handlers [get_announcements], [create_announcement],
    [update_announcement] and [delete_announcement], together with what they
    rely on from Python (truthiness, ordering comparisons), from [bson]
    ([ObjectId]) and from the document store (filters, sorting, [insert_one],
    [update_one], [delete_one]).

    Documents are Python dictionaries, modelled as finite maps from field
    names to values.  Time is counted in microseconds, the resolution of
    Python's [datetime].  [datetime.now()] returns a naive datetime and the
    store hands datetimes back naive; a request body may also carry an aware
    one (a timestamp with a UTC offset, such as one ending in Z).  The store
    keeps a datetime as its instant in UTC, to the millisecond. *)

From Stdlib Require Import ZArith String Ascii List Sorted Permutation Lia.
From stdpp Require Import gmap strings list fin_maps.

(** ** Values held by documents *)

Inductive value : Type :=
| VNull
| VBool (b : bool)
| VStr (s : string)
| VDate (t : Z)
| VOid (o : string).

Global Instance value_eq_dec : EqDecision value.
Proof. solve_decision. Defined.

Abbreviation doc := (gmap string value).

(** ** Python's datetimes *)

(** A naive datetime is its reading in microseconds since the epoch.  An
    aware one is the instant it denotes, in microseconds since the epoch in
    UTC, together with its UTC offset. *)
Inductive datetime : Type :=
| Naive (t : Z)
| Aware (utc : Z) (offset : Z).

(** What a handler holds in a variable or in a dictionary it builds: a value
    as the store hands it out, where [VDate] is a naive datetime, or an aware
    datetime, which only a request body brings in. *)
Inductive pyvalue : Type :=
| Plain (v : value)
| AwareDate (utc : Z) (offset : Z).

Global Instance pyvalue_eq_dec : EqDecision pyvalue.
Proof. solve_decision. Defined.

Abbreviation pydoc := (gmap string pyvalue).

Definition of_datetime (d : datetime) : pyvalue :=
  match d with
  | Naive t => Plain (VDate t)
  | Aware utc offset => AwareDate utc offset
  end.

Module Py.

(** Python's truth value testing: [None], [False] and the empty string are
    false; a [datetime] and an [ObjectId] are always true. *)
Definition truthy (v : value) : bool :=
  match v with
  | VNull => false
  | VBool b => b
  | VStr s => negb (String.eqb s EmptyString)
  | VDate _ => true
  | VOid _ => true
  end.

Definition is_true (p : pyvalue) : bool :=
  match p with
  | Plain v => truthy v
  | AwareDate _ _ => true
  end.

(** [a <= b]: defined between two values of one kind, [None] stands for the
    [TypeError] Python raises on every other pair.  Two naive datetimes
    compare by their readings and two aware ones by their instants; a naive
    and an aware datetime cannot be ordered. *)
Definition le_plain (a b : value) : option bool :=
  match a, b with
  | VDate x, VDate y => Some (x <=? y)%Z
  | VBool x, VBool y => Some (implb x y)
  | VStr x, VStr y => Some (String.leb x y)
  | VOid x, VOid y => Some (String.leb x y)
  | _, _ => None
  end.

Definition le (a b : pyvalue) : option bool :=
  match a, b with
  | Plain x, Plain y => le_plain x y
  | AwareDate x _, AwareDate y _ => Some (x <=? y)%Z
  | _, _ => None
  end.

Definition ge (a b : pyvalue) : option bool := le b a.

(** [not d] for a dictionary: true exactly on the empty one. *)
Definition dict_truthy {V : Type} `{EqDecision V} (d : gmap string V)
  : bool :=
  negb (bool_decide (d = ∅)).

End Py.

(** ** The document store *)

Module Mongo.

(** The filter documents the handlers build: a field test, [$and], [$or].
    A query is a dictionary of such clauses, all of which must hold. *)
Inductive cond : Type :=
| Eq (v : value)
| Gte (v : value)
| Lte (v : value).

#[warnings="-register-all"]
Inductive clause : Type :=
| Field (k : string) (c : cond)
| And (cs : list clause)
| Or (cs : list clause).

Abbreviation query := (list clause).

(** BSON comparison order: values of different kinds compare by kind
    (Null < String < ObjectId < Boolean < Date), values of one kind by
    content. *)
Definition rank (v : value) : Z :=
  match v with
  | VNull => 2
  | VStr _ => 4
  | VOid _ => 8
  | VBool _ => 9
  | VDate _ => 10
  end.

Definition leb (a b : value) : bool :=
  match a, b with
  | VNull, VNull => true
  | VStr x, VStr y => String.leb x y
  | VOid x, VOid y => String.leb x y
  | VBool x, VBool y => implb x y
  | VDate x, VDate y => (x <=? y)%Z
  | _, _ => (rank a <? rank b)%Z
  end.

(** A field test against the field's value, [None] when the document has
    no such field.  Equality with null also matches a missing field;
    [$gte] and [$lte] only match values of the operand's kind. *)
Definition matches_cond (o : option value) (c : cond) : bool :=
  match c with
  | Eq VNull => match o with None | Some VNull => true | Some _ => false end
  | Eq v => bool_decide (o = Some v)
  | Gte v =>
      match o with
      | Some x => (rank x =? rank v)%Z && leb v x
      | None => bool_decide (v = VNull)
      end
  | Lte v =>
      match o with
      | Some x => (rank x =? rank v)%Z && leb x v
      | None => bool_decide (v = VNull)
      end
  end.

Fixpoint matches (d : doc) (c : clause) : bool :=
  match c with
  | Field k t => matches_cond (d !! k) t
  | And cs => forallb (matches d) cs
  | Or cs => existsb (matches d) cs
  end.

Definition satisfies (q : query) (d : doc) : bool := forallb (matches d) q.

Definition find (q : query) (coll : list doc) : list doc :=
  List.filter (satisfies q) coll.

Definition find_one (q : query) (coll : list doc) : option doc :=
  List.find (satisfies q) coll.

(** [cursor.sort(key, direction)]: a missing field sorts as null. *)
Definition sort_key (key : string) (d : doc) : value :=
  default VNull (d !! key).

Definition before (key : string) (direction : Z) (a b : doc) : bool :=
  if (direction <? 0)%Z then leb (sort_key key b) (sort_key key a)
  else leb (sort_key key a) (sort_key key b).

Fixpoint place (key : string) (direction : Z) (d : doc) (l : list doc)
  : list doc :=
  match l with
  | [] => [d]
  | x :: xs =>
      if before key direction d x then d :: x :: xs
      else x :: place key direction d xs
  end.

Definition sort (key : string) (direction : Z) (l : list doc) : list doc :=
  foldr (place key direction) [] l.

(** What the store keeps of a value it is sent.  A datetime is kept as
    milliseconds since the epoch in UTC: an aware one is taken at its
    instant, a naive one as it reads, and what is below the millisecond is
    dropped.  It comes back naive. *)
Definition truncate (t : Z) : Z := (1000 * (t / 1000))%Z.

Definition encode (p : pyvalue) : value :=
  match p with
  | Plain (VDate t) => VDate (truncate t)
  | Plain v => v
  | AwareDate utc _ => VDate (truncate utc)
  end.

Definition encode_doc (d : pydoc) : doc := encode <$> d.

(** [insert_one]: the store gives the document the identifier [oid] and
    appends it. *)
Definition insert_one (oid : string) (d : pydoc) (coll : list doc)
  : list doc :=
  coll ++ [<["_id" := VOid oid]> (encode_doc d)].

(** [update_one(q, {"$set": upd})]: the first document matching [q] gets
    the fields of [upd] as the store keeps them; the count is 1 when that
    changed it, else 0. *)
Fixpoint update_one (q : query) (upd : pydoc) (coll : list doc)
  : list doc * Z :=
  match coll with
  | [] => ([], 0%Z)
  | d :: ds =>
      if satisfies q d then
        (encode_doc upd ∪ d :: ds,
         if bool_decide (encode_doc upd ∪ d = d) then 0%Z else 1%Z)
      else
        let '(ds', n) := update_one q upd ds in (d :: ds', n)
  end.

(** [delete_one(q)]: removes the first document matching [q]. *)
Fixpoint delete_one (q : query) (coll : list doc) : list doc * Z :=
  match coll with
  | [] => ([], 0%Z)
  | d :: ds =>
      if satisfies q d then (ds, 1%Z)
      else let '(ds', n) := delete_one q ds in (d :: ds', n)
  end.

End Mongo.

(** ** [bson.ObjectId] *)

Module Bson.

Definition is_hex (c : ascii) : bool :=
  let n := N_of_ascii c in
  ((48 <=? n) && (n <=? 57) || (65 <=? n) && (n <=? 70)
   || (97 <=? n) && (n <=? 102))%N.

Definition lower (c : ascii) : ascii :=
  let n := N_of_ascii c in
  if ((65 <=? n) && (n <=? 70))%N then ascii_of_N (n + 32) else c.

(** ASCII white space: the space and the characters 9 to 13. *)
Definition is_space (c : ascii) : bool :=
  let n := N_of_ascii c in
  ((n =? 32) || (9 <=? n) && (n <=? 13))%N.

(** [bytes.fromhex(s)]: two hexadecimal digits for each byte, white space
    skipped before a byte and at the end; [None] for the [ValueError] raised
    on anything else.  The bytes are kept as their lower-case hexadecimal
    text. *)
Fixpoint fromhex (s : string) : option string :=
  match s with
  | EmptyString => Some EmptyString
  | String c r =>
      if is_space c then fromhex r
      else
        match r with
        | String c' r' =>
            if is_hex c && is_hex c' then
              match fromhex r' with
              | Some bytes => Some (String (lower c) (String (lower c') bytes))
              | None => None
              end
            else None
        | EmptyString => None
        end
  end.

(** [ObjectId(s)] for a string [s]: when [s] has 24 characters its bytes are
    [bytes.fromhex(s)]; [None] stands for the [InvalidId] raised when [s] has
    another length or [fromhex] fails.  The identifier is kept as its text,
    [str(oid)], the lower-case hexadecimal digits of its bytes: 24 of them
    unless white space was skipped. *)
Definition ObjectId (s : string) : option string :=
  if (String.length s =? 24)%nat then fromhex s else None.

End Bson.

(** ** Request bodies *)

Module AnnouncementCreate.

Record t : Type := {
  title : string;
  message : string;
  start_date : option datetime;
  expiration_date : datetime;
  is_active : bool
}.

(** The constraints of the model's fields. *)
Definition valid (a : t) : bool :=
  ((1 <=? String.length (title a)) && (String.length (title a) <=? 200)
   && (1 <=? String.length (message a))
   && (String.length (message a) <=? 1000))%nat.

(** Building the model from a request body: [start_date] defaults to
    [None] and [is_active] to [True]. *)
Definition make (title message : string) (start_date : option datetime)
    (expiration_date : datetime) (is_active : option bool) : t :=
  {| title := title; message := message; start_date := start_date;
     expiration_date := expiration_date;
     is_active := default true is_active |}.

End AnnouncementCreate.

Module AnnouncementUpdate.

Record t : Type := {
  title : option string;
  message : option string;
  start_date : option datetime;
  expiration_date : option datetime;
  is_active : option bool
}.

Definition in_range (lo hi : nat) (o : option string) : bool :=
  match o with
  | Some s => ((lo <=? String.length s) && (String.length s <=? hi))%nat
  | None => true
  end.

Definition valid (a : t) : bool :=
  in_range 1 200 (title a) && in_range 1 1000 (message a).

End AnnouncementUpdate.

(** ** The handlers' world and their monad *)

(** What a handler reads and writes: the two collections of
    [..database], the wall clock ([clock n] is what the [n]-th call of
    [datetime.now()] returns) and the store's choice of fresh identifiers. *)
Record World : Type := {
  teachers_collection : list doc;
  announcements_collection : list doc;
  clock : nat → Z;
  ticks : nat;
  fresh_oid : list doc → string
}.

Definition tick (w : World) : World :=
  {| teachers_collection := teachers_collection w;
     announcements_collection := announcements_collection w;
     clock := clock w; ticks := S (ticks w); fresh_oid := fresh_oid w |}.

Definition set_announcements (coll : list doc) (w : World) : World :=
  {| teachers_collection := teachers_collection w;
     announcements_collection := coll;
     clock := clock w; ticks := ticks w; fresh_oid := fresh_oid w |}.

(** How a handler ends: it returns, it raises [HTTPException], or another
    exception escapes it. *)
Inductive outcome (A : Type) : Type :=
| Return (a : A)
| HTTPException (status_code : Z) (detail : string)
| Uncaught (exn : string).

Arguments Return {A} a.
Arguments HTTPException {A} status_code detail.
Arguments Uncaught {A} exn.

Definition M (A : Type) : Type := World → outcome A * World.

Global Instance M_ret : MRet M := λ A a w, (Return a, w).

Global Instance M_bind : MBind M := λ A B f m w,
  match m w with
  | (Return a, w') => f a w'
  | (HTTPException s d, w') => (HTTPException s d, w')
  | (Uncaught e, w') => (Uncaught e, w')
  end.

Definition raise {A : Type} (status_code : Z) (detail : string) : M A :=
  λ w, (HTTPException status_code detail, w).

Definition throw {A : Type} (exn : string) : M A :=
  λ w, (Uncaught exn, w).

Definition datetime_now : M Z :=
  λ w, (Return (clock w (ticks w)), tick w).

Definition teachers_find_one (q : Mongo.query) : M (option doc) :=
  λ w, (Return (Mongo.find_one q (teachers_collection w)), w).

Definition announcements_find_one (q : Mongo.query) : M (option doc) :=
  λ w, (Return (Mongo.find_one q (announcements_collection w)), w).

Definition announcements_find_sort (q : Mongo.query) (key : string)
    (direction : Z) : M (list doc) :=
  λ w, (Return (Mongo.sort key direction
                  (Mongo.find q (announcements_collection w))), w).

Definition announcements_insert_one (d : pydoc) : M string :=
  λ w, let oid := fresh_oid w (announcements_collection w) in
       (Return oid,
        set_announcements
          (Mongo.insert_one oid d (announcements_collection w)) w).

Definition announcements_update_one (q : Mongo.query) (upd : pydoc)
  : M Z :=
  λ w, let '(coll, n) := Mongo.update_one q upd (announcements_collection w) in
       (Return n, set_announcements coll w).

Definition announcements_delete_one (q : Mongo.query) : M Z :=
  λ w, let '(coll, n) := Mongo.delete_one q (announcements_collection w) in
       (Return n, set_announcements coll w).

(** [not x] where [x] is what [find_one] returned: [None], or a document. *)
Definition not_found (x : option doc) : bool :=
  match x with
  | Some d => negb (Py.dict_truthy d)
  | None => true
  end.

(** The teacher check that opens the three writing handlers. *)
Definition verify_teacher (teacher_username : string) (detail : string)
  : M unit :=
  teacher ← teachers_find_one
              [Mongo.Field "_id" (Mongo.Eq (VStr teacher_username))];
  if not_found teacher then raise 401 detail else mret ().

(** ** [get_announcements] *)

Section Listing.

(** [datetime.isoformat(sep)], which the handlers do not define. *)
Variable isoformat : ascii → Z → string.

(** [str(v)]; the text of a datetime is [isoformat] with a space. *)
Definition str (v : value) : string :=
  match v with
  | VNull => "None"
  | VBool true => "True"
  | VBool false => "False"
  | VStr s => s
  | VDate t => isoformat " " t
  | VOid o => o
  end.

(** One round of the inner loop: a field that is present and true is
    replaced by its ISO text, which only a datetime has. *)
Definition convert_field (field : string) (announcement : doc)
  : outcome doc :=
  match announcement !! field with
  | Some v =>
      if Py.truthy v then
        match v with
        | VDate t => Return (<[field := VStr (isoformat "T" t)]> announcement)
        | _ => Uncaught "AttributeError"
        end
      else Return announcement
  | None => Return announcement
  end.

Fixpoint convert_fields (fields : list string) (announcement : doc)
  : outcome doc :=
  match fields with
  | [] => Return announcement
  | field :: rest =>
      match convert_field field announcement with
      | Return announcement' => convert_fields rest announcement'
      | other => other
      end
  end.

(** The body of the outer loop: [_id] is popped and its text stored under
    [id], then the three date fields are converted. *)
Definition serialize (announcement : doc) : outcome doc :=
  match announcement !! "_id" with
  | None => Uncaught "KeyError"
  | Some oid =>
      convert_fields ["start_date"; "expiration_date"; "created_at"]
        (<["id" := VStr (str oid)]> (delete "_id" announcement))
  end.

Definition lift {A : Type} (o : outcome A) : M A := λ w, (o, w).

Definition get_announcements (active_only : bool)
    (teacher_username : option string) : M (list doc) :=
  query ← (if active_only then
             current_time ← datetime_now;
             mret [Mongo.Field "is_active" (Mongo.Eq (VBool true));
                   Mongo.And
                     [Mongo.Field "expiration_date"
                        (Mongo.Gte (VDate current_time));
                      Mongo.Or
                        [Mongo.Field "start_date"
                           (Mongo.Lte (VDate current_time));
                         Mongo.Field "start_date" (Mongo.Eq VNull)]]]
           else mret []);
  match teacher_username with
  | Some username =>
      if negb active_only && Py.truthy (VStr username) then
        teacher ← teachers_find_one
                    [Mongo.Field "_id" (Mongo.Eq (VStr username))];
        if not_found teacher then
          raise 401 "Authentication required for management access"
        else mret ()
      else mret ()
  | None => mret ()
  end;;
  found ← announcements_find_sort query "created_at" (-1);
  mapM (λ announcement, lift (serialize announcement)) found.

End Listing.

(** ** [create_announcement] *)

(** A comparison inside an [if]: raise the error when it holds, and let the
    [TypeError] of an undefined comparison escape. *)
Definition reject_when (test : option bool) (status_code : Z)
    (detail : string) : M unit :=
  match test with
  | Some true => raise status_code detail
  | Some false => mret ()
  | None => throw "TypeError"
  end.

Definition optional_date (o : option datetime) : pyvalue :=
  match o with
  | Some d => of_datetime d
  | None => Plain VNull
  end.

Definition create_announcement (announcement : AnnouncementCreate.t)
    (teacher_username : string) : M (gmap string string) :=
  verify_teacher teacher_username "Authentication required for this action";;
  now ← datetime_now;
  reject_when
    (Py.le (of_datetime (AnnouncementCreate.expiration_date announcement))
       (Plain (VDate now)))
    400 "Expiration date must be in the future";;
  match AnnouncementCreate.start_date announcement with
  | Some start =>
      reject_when
        (Py.ge (of_datetime start)
           (of_datetime (AnnouncementCreate.expiration_date announcement)))
        400 "Start date must be before expiration date"
  | None => mret ()
  end;;
  created_at ← datetime_now;
  let announcement_doc : pydoc :=
    <["title" := Plain (VStr (AnnouncementCreate.title announcement))]>
    (<["message" := Plain (VStr (AnnouncementCreate.message announcement))]>
    (<["start_date" :=
         optional_date (AnnouncementCreate.start_date announcement)]>
    (<["expiration_date" :=
         of_datetime (AnnouncementCreate.expiration_date announcement)]>
    (<["created_by" := Plain (VStr teacher_username)]>
    (<["created_at" := Plain (VDate created_at)]>
    (<["is_active" :=
         Plain (VBool (AnnouncementCreate.is_active announcement))]>
     ∅)))))) in
  inserted_id ← announcements_insert_one announcement_doc;
  (if negb (Py.truthy (VOid inserted_id)) then
     raise 500 "Failed to create announcement"
   else mret ());;
  mret (<["message" :=
            "Announcement '" +:+ AnnouncementCreate.title announcement
            +:+ "' created successfully"]>
        (<["id" := inserted_id]> ∅)).

(** ** [update_announcement] *)

Definition set_field {A : Type} (key : string) (inject : A → pyvalue)
    (o : option A) (update_doc : pydoc) : pydoc :=
  match o with
  | Some x => <[key := inject x]> update_doc
  | None => update_doc
  end.

Definition build_update_doc (announcement : AnnouncementUpdate.t) : pydoc :=
  set_field "is_active" (λ b, Plain (VBool b))
    (AnnouncementUpdate.is_active announcement)
  (set_field "expiration_date" of_datetime
     (AnnouncementUpdate.expiration_date announcement)
  (set_field "start_date" of_datetime
     (AnnouncementUpdate.start_date announcement)
  (set_field "message" (λ s, Plain (VStr s))
     (AnnouncementUpdate.message announcement)
  (set_field "title" (λ s, Plain (VStr s))
     (AnnouncementUpdate.title announcement) ∅)))).

Definition update_announcement (announcement_id : string)
    (announcement : AnnouncementUpdate.t) (teacher_username : string)
  : M (gmap string string) :=
  verify_teacher teacher_username "Authentication required for this action";;
  match Bson.ObjectId announcement_id with
  | None => raise 400 "Invalid announcement ID"
  | Some oid =>
      existing ← announcements_find_one
                   [Mongo.Field "_id" (Mongo.Eq (VOid oid))];
      match existing with
      | None => raise 404 "Announcement not found"
      | Some existing =>
          if negb (Py.dict_truthy existing) then
            raise 404 "Announcement not found"
          else
            let update_doc := build_update_doc announcement in
            final_expiration ←
              match AnnouncementUpdate.expiration_date announcement with
              | Some d => mret (of_datetime d)
              | None =>
                  match existing !! "expiration_date" with
                  | Some v => mret (Plain v)
                  | None => throw "KeyError"
                  end
              end;
            let final_start :=
              match AnnouncementUpdate.start_date announcement with
              | Some d => of_datetime d
              | None => Plain (default VNull (existing !! "start_date"))
              end in
            (if Py.is_true final_expiration then
               now ← datetime_now;
               reject_when (Py.le final_expiration (Plain (VDate now))) 400
                 "Expiration date must be in the future"
             else mret ());;
            (if Py.is_true final_start then
               reject_when (Py.ge final_start final_expiration) 400
                 "Start date must be before expiration date"
             else mret ());;
            (if negb (Py.dict_truthy update_doc) then
               raise 400 "No fields provided for update"
             else mret ());;
            modified_count ← announcements_update_one
                               [Mongo.Field "_id" (Mongo.Eq (VOid oid))]
                               update_doc;
            (if (modified_count =? 0)%Z then
               raise 500 "Failed to update announcement"
             else mret ());;
            mret (<["message" := "Announcement updated successfully"]> ∅)
      end
  end.

(** ** [delete_announcement] *)

Definition delete_announcement (announcement_id : string)
    (teacher_username : string) : M (gmap string string) :=
  verify_teacher teacher_username "Authentication required for this action";;
  match Bson.ObjectId announcement_id with
  | None => raise 400 "Invalid announcement ID"
  | Some oid =>
      deleted_count ← announcements_delete_one
                        [Mongo.Field "_id" (Mongo.Eq (VOid oid))];
      if (deleted_count =? 0)%Z then raise 404 "Announcement not found"
      else mret (<["message" := "Announcement deleted successfully"]> ∅)
  end.

(** * Properties *)

(** ** Notions of the specification *)

(** The Teacher Directory knows [username]: some teacher document has it as
    its identifier. *)
Definition is_teacher (w : World) (username : string) : Prop :=
  Exists (λ d : doc, d !! "_id" = Some (VStr username))
    (teachers_collection w).

(** The announcement identified by [oid] is stored. *)
Definition stored (w : World) (oid : string) : Prop :=
  Exists (λ d : doc, d !! "_id" = Some (VOid oid))
    (announcements_collection w).

Global Instance is_teacher_dec (w : World) (username : string) :
  Decision (is_teacher w username).
Proof. unfold is_teacher. apply _. Defined.

Global Instance stored_dec (w : World) (oid : string) :
  Decision (stored w oid).
Proof. unfold stored. apply _. Defined.

Definition is_date (o : option value) : bool :=
  match o with Some (VDate _) => true | _ => false end.

Definition is_optional_date (o : option value) : bool :=
  match o with None | Some VNull | Some (VDate _) => true | _ => false end.

Definition is_text (o : option value) : bool :=
  match o with Some (VStr _) => true | _ => false end.

Definition is_flag (o : option value) : bool :=
  match o with Some (VBool _) => true | _ => false end.

Definition is_oid (o : option value) : bool :=
  match o with Some (VOid _) => true | _ => false end.

(** The shape of the documents [create_announcement] writes, which
    [update_announcement] keeps. *)
Definition well_formed (d : doc) : bool :=
  is_oid (d !! "_id") && is_text (d !! "title") && is_text (d !! "message")
  && is_optional_date (d !! "start_date")
  && is_date (d !! "expiration_date") && is_text (d !! "created_by")
  && is_date (d !! "created_at") && is_flag (d !! "is_active").

(** The stored dates of a document, as the data model reads them. *)
Definition expiration_of (d : doc) : option Z :=
  match d !! "expiration_date" with Some (VDate t) => Some t | _ => None end.

Definition start_of (d : doc) : option Z :=
  match d !! "start_date" with Some (VDate t) => Some t | _ => None end.

Definition created_at_of (d : doc) : option Z :=
  match d !! "created_at" with Some (VDate t) => Some t | _ => None end.

(** "Currently active" in the words of the data model: the flag is set, the
    expiration date is not before [now], and the start date is absent or not
    after [now]. *)
Definition currently_active (now : Z) (d : doc) : bool :=
  bool_decide (d !! "is_active" = Some (VBool true))
  && match d !! "expiration_date" with
     | Some (VDate e) => (now <=? e)%Z
     | _ => false
     end
  && match d !! "start_date" with
     | None | Some VNull => true
     | Some (VDate s) => (s <=? now)%Z
     | Some _ => false
     end.

(** Newest first. *)
Definition newest_first (a b : doc) : Prop :=
  match created_at_of a, created_at_of b with
  | Some ta, Some tb => (tb <= ta)%Z
  | _, _ => False
  end.

(** The effective dates of an update: the patch value if present, else the
    stored one. *)
Definition effective_expiration (patch : AnnouncementUpdate.t)
    (existing : doc) : option datetime :=
  match AnnouncementUpdate.expiration_date patch with
  | Some d => Some d
  | None => Naive <$> expiration_of existing
  end.

Definition effective_start (patch : AnnouncementUpdate.t) (existing : doc)
  : option datetime :=
  match AnnouncementUpdate.start_date patch with
  | Some d => Some d
  | None => Naive <$> start_of existing
  end.

(** The date rules of the data model, on naive dates, fail: the expiration
    is not strictly after [now], or a start date is present and not strictly
    before the expiration. *)
Definition dates_rejected (now : Z) (start : option datetime)
    (expiration : datetime) : Prop :=
  ∃ e, expiration = Naive e
       ∧ ((e <= now)%Z ∨ ∃ s, start = Some (Naive s) ∧ (e <= s)%Z).

(** The date rules of the data model, on naive dates, hold: the expiration
    is strictly after [now], and a start date, if present, is strictly
    before the expiration. *)
Definition dates_accepted (now : Z) (start : option datetime)
    (expiration : datetime) : Prop :=
  ∃ e, expiration = Naive e ∧ (now < e)%Z
       ∧ match start with
         | None => True
         | Some (Naive s) => (s < e)%Z
         | Some (Aware _ _) => False
         end.

(** The dates of a request carry no UTC offset. *)
Definition is_naive (d : datetime) : bool :=
  match d with Naive _ => true | Aware _ _ => false end.

Definition naive_dates (start : option datetime) (expiration : datetime)
  : Prop :=
  is_naive expiration = true ∧ from_option is_naive true start = true.

(** A date of a request as the store keeps it. *)
Definition stored_date (d : datetime) : value :=
  Mongo.encode (of_datetime d).

(** The reading the store keeps of a date: a naive one as it reads, an
    aware one at its instant, cut to the millisecond. *)
Definition kept_reading (d : datetime) : Z :=
  match d with
  | Naive t => Mongo.truncate t
  | Aware utc _ => Mongo.truncate utc
  end.

(** The dates of a patch carry no UTC offset. *)
Definition naive_patch (patch : AnnouncementUpdate.t) : Prop :=
  from_option is_naive true (AnnouncementUpdate.start_date patch) = true
  ∧ from_option is_naive true (AnnouncementUpdate.expiration_date patch)
    = true.

Definition stored_optional_date (o : option datetime) : value :=
  match o with
  | Some d => stored_date d
  | None => VNull
  end.

(** The document the store holds after a Create of [a] by [username] has
    gone through, built at the clock reading [created_at] and given the
    identifier [oid]. *)
Definition stored_announcement (oid : string) (a : AnnouncementCreate.t)
    (username : string) (created_at : Z) : doc :=
  <["_id" := VOid oid]>
  (<["title" := VStr (AnnouncementCreate.title a)]>
  (<["message" := VStr (AnnouncementCreate.message a)]>
  (<["start_date" := stored_optional_date (AnnouncementCreate.start_date a)]>
  (<["expiration_date" := stored_date (AnnouncementCreate.expiration_date a)]>
  (<["created_by" := VStr username]>
  (<["created_at" := VDate (Mongo.truncate created_at)]>
  (<["is_active" := VBool (AnnouncementCreate.is_active a)]> ∅))))))).

(** What a Create that passes its checks returns, and the world it
    leaves. *)
Definition created (a : AnnouncementCreate.t) (username : string)
    (w : World) : outcome (gmap string string) * World :=
  let oid := fresh_oid w (announcements_collection w) in
  (Return (<["message" :=
              "Announcement '" +:+ AnnouncementCreate.title a
              +:+ "' created successfully"]> (<["id" := oid]> ∅)),
   set_announcements
     (announcements_collection w
      ++ [stored_announcement oid a username (clock w (S (ticks w)))])
     (tick (tick w))).

(** No field of the patch is present. *)
Definition empty_patch (patch : AnnouncementUpdate.t) : Prop :=
  AnnouncementUpdate.title patch = None
  ∧ AnnouncementUpdate.message patch = None
  ∧ AnnouncementUpdate.start_date patch = None
  ∧ AnnouncementUpdate.expiration_date patch = None
  ∧ AnnouncementUpdate.is_active patch = None.

(** What a patch says about the field named [k], as the store keeps it. *)
Definition patch_field (patch : AnnouncementUpdate.t) (k : string)
  : option value :=
  if bool_decide (k = "title") then
    VStr <$> AnnouncementUpdate.title patch
  else if bool_decide (k = "message") then
    VStr <$> AnnouncementUpdate.message patch
  else if bool_decide (k = "start_date") then
    stored_date <$> AnnouncementUpdate.start_date patch
  else if bool_decide (k = "expiration_date") then
    stored_date <$> AnnouncementUpdate.expiration_date patch
  else if bool_decide (k = "is_active") then
    VBool <$> AnnouncementUpdate.is_active patch
  else None.

(** The query that finds a document by its identifier. *)
Definition by_id (v : value) : Mongo.query :=
  [Mongo.Field "_id" (Mongo.Eq v)].

(** The query of the active listing at time [now]. *)
Definition active_query (now : Z) : Mongo.query :=
  [Mongo.Field "is_active" (Mongo.Eq (VBool true));
   Mongo.And
     [Mongo.Field "expiration_date" (Mongo.Gte (VDate now));
      Mongo.Or
        [Mongo.Field "start_date" (Mongo.Lte (VDate now));
         Mongo.Field "start_date" (Mongo.Eq VNull)]]].

(** What an Update does once its date checks have passed: it refuses an
    empty update document, and else writes and reports what the store
    counted. *)
Definition apply_patch (oid : string) (patch : AnnouncementUpdate.t)
    (w : World) : outcome (gmap string string) * World :=
  if bool_decide (build_update_doc patch = ∅) then
    (HTTPException 400 "No fields provided for update", tick w)
  else
    let '(coll, n) :=
      Mongo.update_one (by_id (VOid oid)) (build_update_doc patch)
        (announcements_collection w) in
    (if (n =? 0)%Z then HTTPException 500 "Failed to update announcement"
     else Return (<["message" := "Announcement updated successfully"]> ∅),
     set_announcements coll (tick w)).

(** The outer loop of [get_announcements], without the world. *)
Fixpoint serialize_each (isoformat : ascii → Z → string) (l : list doc)
  : outcome (list doc) :=
  match l with
  | [] => Return []
  | d :: ds =>
      match serialize isoformat d with
      | Return r =>
          match serialize_each isoformat ds with
          | Return rs => Return (r :: rs)
          | other => other
          end
      | HTTPException s x => HTTPException s x
      | Uncaught e => Uncaught e
      end
  end.

Definition set_teachers (coll : list doc) (w : World) : World :=
  {| teachers_collection := coll;
     announcements_collection := announcements_collection w;
     clock := clock w; ticks := ticks w; fresh_oid := fresh_oid w |}.

(** A computation that leaves the announcement store as it found it. *)
Definition frame {A : Type} (m : M A) : Prop :=
  ∀ w, announcements_collection (snd (m w)) = announcements_collection w.

(** From a store satisfying [P], the computation ends in an outcome and a
    store related to the first store by [R]. *)
Definition ensures {A : Type} (P : list doc → Prop)
    (R : list doc → outcome A → list doc → Prop) (m : M A) : Prop :=
  ∀ w, P (announcements_collection w) →
       R (announcements_collection w) (fst (m w))
         (announcements_collection (snd (m w))).

(** What an Update may do to the store: nothing, and then it did not
    return; or put the update document over the one announcement that has
    the requested identifier. *)
Definition updated {A : Type} (id : string) (upd : doc) (old : list doc)
    (out : outcome A) (new : list doc) : Prop :=
  (new = old ∧ ∀ r, out ≠ Return r)
  ∨ ∃ oid existing pre post,
      Bson.ObjectId id = Some oid
      ∧ existing !! "_id" = Some (VOid oid)
      ∧ old = pre ++ existing :: post
      ∧ new = pre ++ (upd ∪ existing) :: post.

(** A date field as the listing returns it: a datetime becomes its ISO
    text, anything else stays. *)
Definition iso_field (isoformat : ascii → Z → string) (o : option value)
  : option value :=
  match o with
  | Some (VDate t) => Some (VStr (isoformat "T"%char t))
  | _ => o
  end.

(** A date field the inner loop of the listing can pass: missing, false in
    Python's sense, or a datetime. *)
Definition convertible (o : option value) : bool :=
  match o with
  | None => true
  | Some (VDate _) => true
  | Some v => negb (Py.truthy v)
  end.

Definition date_fields : list string :=
  ["start_date"; "expiration_date"; "created_at"].

(** No two stored documents share an identifier, as the store guarantees
    for [_id]. *)
Definition unique_ids (coll : list doc) : Prop :=
  NoDup (map (λ d : doc, d !! "_id") coll).

(** A computation that leaves the Teacher Directory as it found it. *)
Definition keeps_teachers {A : Type} (m : M A) : Prop :=
  ∀ w, teachers_collection (snd (m w)) = teachers_collection w.

(** The status codes a handler may answer with. *)
Definition answers {A : Type} (codes : list Z) (out : outcome A) : Prop :=
  match out with
  | Return _ => True
  | HTTPException status_code _ => In status_code codes
  | Uncaught _ => False
  end.

(** ** Sample data *)

Definition sample_isoformat (sep : ascii) (t : Z) : string :=
  String sep EmptyString.

Definition sample_announcement (oid title : string) (start : value)
    (expiration : Z) (active : bool) (created : Z) : doc :=
  <["_id" := VOid oid]>
  (<["title" := VStr title]>
  (<["message" := VStr "Read me"]>
  (<["start_date" := start]>
  (<["expiration_date" := VDate expiration]>
  (<["created_by" := VStr "mchen"]>
  (<["created_at" := VDate created]>
  (<["is_active" := VBool active]> ∅))))))).

(** One teacher and four announcements; the clock reads 50, 51, ... *)
Definition sample_world : World :=
  {| teachers_collection := [<["_id" := VStr "mchen"]> ∅];
     announcements_collection :=
       [sample_announcement "aaaaaaaaaaaaaaaaaaaaaaaa" "A" VNull 100 true 5;
        sample_announcement "bbbbbbbbbbbbbbbbbbbbbbbb" "B" (VDate 20) 100
          true 7;
        sample_announcement "cccccccccccccccccccccccc" "C" (VDate 60) 100
          true 9;
        sample_announcement "dddddddddddddddddddddddd" "D" VNull 40 true 3];
     clock := λ n, (50 + Z.of_nat n)%Z;
     ticks := 0;
     fresh_oid := λ _, "ffffffffffffffffffffffff" |}.

(** Midnight of a day, in microseconds since the epoch. *)
Definition day_2023_06_01 : Z := 1685577600000000.
Definition day_2023_12_15 : Z := 1702598400000000.
Definition day_2024_01_01 : Z := 1704067200000000.
Definition day_2024_02_15 : Z := 1707955200000000.
Definition day_2024_12_31 : Z := 1735603200000000.

(** The example of the specification: an announcement running from
    2024-01-01 to 2024-12-31, looked at on 2024-02-15. *)
Definition calendar_world : World :=
  {| teachers_collection := [<["_id" := VStr "mchen"]> ∅];
     announcements_collection :=
       [sample_announcement "abcdefabcdefabcdefabcdef" "Term"
          (VDate day_2024_01_01) day_2024_12_31 true day_2023_12_15];
     clock := λ _, day_2024_02_15;
     ticks := 0;
     fresh_oid := λ _, "ffffffffffffffffffffffff" |}.

(** A store with one teacher and no announcement, whose clock reads
    2024-01-01 00:00:00.123456. *)
Definition new_year_world : World :=
  {| teachers_collection := [<["_id" := VStr "mchen"]> ∅];
     announcements_collection := [];
     clock := λ _, (day_2024_01_01 + 123456)%Z;
     ticks := 0;
     fresh_oid := λ _, "ffffffffffffffffffffffff" |}.

(** A store holding a document whose start date was written as text. *)
Definition legacy_announcement : doc :=
  sample_announcement "aaaaaaaaaaaaaaaaaaaaaaaa" "Old" (VStr "2024-01-01")
    100 true 5.

Definition legacy_world : World :=
  {| teachers_collection := [<["_id" := VStr "mchen"]> ∅];
     announcements_collection := [legacy_announcement];
     clock := λ n, (50 + Z.of_nat n)%Z;
     ticks := 0;
     fresh_oid := λ _, "ffffffffffffffffffffffff" |}.

(** A store holding a document that has nothing but its identifier. *)
Definition bare_world : World :=
  {| teachers_collection := [<["_id" := VStr "mchen"]> ∅];
     announcements_collection :=
       [<["_id" := VOid "eeeeeeeeeeeeeeeeeeeeeeee"]> ∅];
     clock := λ n, (50 + Z.of_nat n)%Z;
     ticks := 0;
     fresh_oid := λ _, "ffffffffffffffffffffffff" |}.

Definition sample_patch (title message : option string)
    (start_date expiration_date : option datetime) (is_active : option bool)
  : AnnouncementUpdate.t :=
  {| AnnouncementUpdate.title := title;
     AnnouncementUpdate.message := message;
     AnnouncementUpdate.start_date := start_date;
     AnnouncementUpdate.expiration_date := expiration_date;
     AnnouncementUpdate.is_active := is_active |}.

(** ** The monad *)

Lemma run_bind {A B : Type} (m : M A) (f : A → M B) (w : World) :
  (m ≫= f) w =
  match m w with
  | (Return a, w') => f a w'
  | (HTTPException s d, w') => (HTTPException s d, w')
  | (Uncaught e, w') => (Uncaught e, w')
  end.
Proof. reflexivity. Qed.

Lemma run_ret {A : Type} (a : A) (w : World) :
  (mret a : M A) w = (Return a, w).
Proof. reflexivity. Qed.


(** ** Looking a document up by its identifier *)

Lemma satisfies_id (v : value) (d : doc) :
  v ≠ VNull →
  Mongo.satisfies [Mongo.Field "_id" (Mongo.Eq v)] d
  = bool_decide (d !! "_id" = Some v).
Proof.
  intros Hv. unfold Mongo.satisfies. simpl. rewrite andb_true_r.
  by destruct v.
Qed.

Lemma find_one_id_Some (v : value) (coll : list doc) (d : doc) :
  v ≠ VNull →
  Mongo.find_one [Mongo.Field "_id" (Mongo.Eq v)] coll = Some d →
  In d coll ∧ d !! "_id" = Some v.
Proof.
  intros Hv Hf. apply find_some in Hf as [Hin Hs].
  rewrite satisfies_id in Hs by done.
  split; [done | by apply bool_decide_eq_true in Hs].
Qed.

Lemma find_one_id_None (v : value) (coll : list doc) :
  v ≠ VNull →
  Mongo.find_one [Mongo.Field "_id" (Mongo.Eq v)] coll = None ↔
  ∀ d, In d coll → d !! "_id" ≠ Some v.
Proof.
  intros Hv. split.
  - intros Hf d Hin Hd.
    pose proof (find_none _ _ Hf d Hin) as Hs.
    rewrite satisfies_id in Hs by done.
    by apply bool_decide_eq_false in Hs.
  - intros Hall. induction coll as [|x xs IH]; [done|].
    unfold Mongo.find_one. cbn [List.find]. rewrite satisfies_id by done.
    rewrite bool_decide_eq_false_2.
    + apply IH. intros d Hd. apply Hall. by right.
    + apply Hall. by left.
Qed.

Lemma found_is_truthy (v : value) (coll : list doc) (d : doc) :
  v ≠ VNull →
  Mongo.find_one [Mongo.Field "_id" (Mongo.Eq v)] coll = Some d →
  Py.dict_truthy d = true.
Proof.
  intros Hv Hf. apply find_one_id_Some in Hf as [_ Hd]; [|done].
  unfold Py.dict_truthy. rewrite bool_decide_eq_false_2; [done|].
  intros ->. by rewrite lookup_empty in Hd.
Qed.

(** ** The teacher check *)

Lemma verify_teacher_known (w : World) (username detail : string) :
  is_teacher w username →
  verify_teacher username detail w = (Return (), w).
Proof.
  intros (d & Hin & Hd)%List.Exists_exists.
  unfold verify_teacher, teachers_find_one.
  rewrite run_bind.
  destruct (Mongo.find_one _ (teachers_collection w)) as [d'|] eqn:Hf.
  - apply found_is_truthy in Hf; [|done]. unfold not_found. by rewrite Hf.
  - exfalso. revert Hf. rewrite find_one_id_None by done.
    intros Hall. by apply (Hall d).
Qed.

Lemma verify_teacher_unknown (w : World) (username detail : string) :
  ¬ is_teacher w username →
  verify_teacher username detail w = (HTTPException 401 detail, w).
Proof.
  intros Hno. unfold verify_teacher, teachers_find_one. rewrite run_bind.
  destruct (Mongo.find_one _ (teachers_collection w)) as [d'|] eqn:Hf.
  - exfalso. apply Hno. apply List.Exists_exists. exists d'.
    by apply find_one_id_Some in Hf.
  - done.
Qed.

(** ** Closed facts are settled by evaluation *)

Ltac by_evaluation := vm_compute; first [reflexivity | exact I | done].

(** Running a handler: the monad's operations are unfolded and the matches
    on what they return are reduced. *)
Ltac run :=
  cbv beta iota zeta delta
    [mbind M_bind mret M_ret raise throw datetime_now
     teachers_find_one announcements_find_one announcements_find_sort
     announcements_insert_one announcements_update_one
     announcements_delete_one].

Ltac decide_closed := apply (bool_decide_unpack _); vm_compute; exact I.

(** ** Removing a document *)

Lemma delete_one_absent (v : value) (coll : list doc) :
  v ≠ VNull →
  (∀ d, In d coll → d !! "_id" ≠ Some v) →
  Mongo.delete_one [Mongo.Field "_id" (Mongo.Eq v)] coll = (coll, 0%Z).
Proof.
  intros Hv. induction coll as [|x xs IH]; intros Hall; [done|].
  cbn [Mongo.delete_one]. rewrite satisfies_id by done.
  rewrite bool_decide_eq_false_2 by (apply Hall; by left).
  rewrite IH; [done|]. intros d Hd. apply Hall. by right.
Qed.

(** ** Writes need a teacher *)

(** C8: a Create, Update or Delete request whose requester is not in the
    Teacher Directory fails with Unauthorized (401) whatever else it
    carries, and leaves the world, the announcement store included, as it
    was. *)
Theorem writes_require_teacher (w : World) (username : string)
    (a : AnnouncementCreate.t) (id : string) (patch : AnnouncementUpdate.t) :
  ¬ is_teacher w username →
  create_announcement a username w
  = (HTTPException 401 "Authentication required for this action", w)
  ∧ update_announcement id patch username w
    = (HTTPException 401 "Authentication required for this action", w)
  ∧ delete_announcement id username w
    = (HTTPException 401 "Authentication required for this action", w).
Proof.
  intros Hno.
  unfold create_announcement, update_announcement, delete_announcement.
  rewrite !run_bind, !verify_teacher_unknown by done. done.
Qed.

Lemma writes_require_teacher_witness :
  create_announcement (AnnouncementCreate.make "T" "M" None (Naive 60) None)
    "mallory" sample_world
  = (HTTPException 401 "Authentication required for this action",
     sample_world)
  ∧ update_announcement "aaaaaaaaaaaaaaaaaaaaaaaa"
      (sample_patch (Some "X") None None None None) "mallory" sample_world
    = (HTTPException 401 "Authentication required for this action",
       sample_world)
  ∧ delete_announcement "aaaaaaaaaaaaaaaaaaaaaaaa" "mallory" sample_world
    = (HTTPException 401 "Authentication required for this action",
       sample_world).
Proof.
  apply (writes_require_teacher sample_world "mallory").
  decide_closed.
Defined.

(** ** Deleting *)


(** What [ObjectId] takes and what it refuses: 24 hexadecimal digits in
    either case, 24 characters that are byte pairs with white space between
    them, but neither white space inside a byte pair, nor another length,
    nor another character. *)
Lemma ObjectId_examples :
  Bson.ObjectId "ABCDEFabcdef012345678901" = Some "abcdefabcdef012345678901"
  ∧ Bson.ObjectId "aabb ccdd eeff 0011 2233" = Some "aabbccddeeff00112233"
  ∧ Bson.ObjectId "a abbccddeeff00112233445" = None
  ∧ Bson.ObjectId "not-an-id" = None
  ∧ Bson.ObjectId "gggggggggggggggggggggggg" = None.
Proof. by vm_compute. Qed.


(** ** Listing *)

Lemma not_found_teacher (w : World) (username : string) :
  not_found
    (Mongo.find_one [Mongo.Field "_id" (Mongo.Eq (VStr username))]
       (teachers_collection w))
  = negb (bool_decide (is_teacher w username)).
Proof.
  destruct (Mongo.find_one _ (teachers_collection w)) as [d|] eqn:Hf.
  - rewrite bool_decide_eq_true_2.
    + apply found_is_truthy in Hf; [|done]. unfold not_found. by rewrite Hf.
    + apply List.Exists_exists. exists d. by apply find_one_id_Some in Hf.
  - rewrite bool_decide_eq_false_2; [done|].
    intros (d & Hin & Hd)%List.Exists_exists.
    revert Hf. rewrite find_one_id_None by done. intros Hall.
    by apply (Hall d).
Qed.

Lemma find_everything (coll : list doc) : Mongo.find [] coll = coll.
Proof.
  unfold Mongo.find. induction coll as [|d ds IH]; [done|].
  cbn. by rewrite IH.
Qed.

Lemma mapM_serialize (isoformat : ascii → Z → string) (l : list doc)
    (w : World) :
  mapM (λ announcement, lift (serialize isoformat announcement)) l w
  = (serialize_each isoformat l, w).
Proof.
  induction l as [|d ds IH]; [done|].
  cbn [mapM serialize_each]. rewrite run_bind. unfold lift at 1.
  destruct (serialize isoformat d); [|done..].
  rewrite run_bind, IH.
  by destruct (serialize_each isoformat ds).
Qed.

(** The active listing reads the clock once, asks no teacher, and renders
    what the store finds for the active query. *)
Lemma get_announcements_active (isoformat : ascii → Z → string)
    (username : option string) (w : World) :
  get_announcements isoformat true username w
  = (serialize_each isoformat
       (Mongo.sort "created_at" (-1)
          (Mongo.find (active_query (clock w (ticks w)))
             (announcements_collection w))),
     tick w).
Proof.
  unfold get_announcements. run.
  destruct username as [u|]; cbn [negb andb]; by rewrite mapM_serialize.
Qed.

(** The management listing renders the whole collection, after the teacher
    check when a non-empty username came with the request. *)
Lemma get_announcements_all (isoformat : ascii → Z → string)
    (username : option string) (w : World) :
  get_announcements isoformat false username w
  = match username with
    | Some u =>
        if Py.truthy (VStr u) && negb (bool_decide (is_teacher w u)) then
          (HTTPException 401 "Authentication required for management access",
           w)
        else
          (serialize_each isoformat
             (Mongo.sort "created_at" (-1) (announcements_collection w)), w)
    | None =>
        (serialize_each isoformat
           (Mongo.sort "created_at" (-1) (announcements_collection w)), w)
    end.
Proof.
  unfold get_announcements. run.
  destruct username as [u|]; cbn [negb andb];
    [|by rewrite mapM_serialize, find_everything].
  destruct (Py.truthy (VStr u)); cbn [andb];
    [|by rewrite mapM_serialize, find_everything].
  rewrite not_found_teacher. destruct (bool_decide (is_teacher w u));
    cbn [negb]; [|done].
  by rewrite mapM_serialize, find_everything.
Qed.

(** *** The store's order *)

Lemma leb_total (a b : value) :
  Mongo.leb a b = false → Mongo.leb b a = true.
Proof.
  destruct a as [|x|x|x|x], b as [|y|y|y|y]; cbn; try done.
  - by destruct x, y.
  - intros H. destruct (String.leb_total x y) as [Hxy|Hyx]; congruence.
  - lia.
  - intros H. destruct (String.leb_total x y) as [Hxy|Hyx]; congruence.
Qed.

Lemma before_total (key : string) (direction : Z) (a b : doc) :
  Mongo.before key direction a b = false →
  Mongo.before key direction b a = true.
Proof.
  unfold Mongo.before. destruct (direction <? 0)%Z; apply leb_total.
Qed.

Lemma place_permutation (key : string) (direction : Z) (d : doc)
    (l : list doc) :
  Permutation (Mongo.place key direction d l) (d :: l).
Proof.
  induction l as [|x xs IH]; cbn [Mongo.place]; [done|].
  destruct (Mongo.before key direction d x); [done|].
  rewrite IH. apply perm_swap.
Qed.

Lemma sort_permutation (key : string) (direction : Z) (l : list doc) :
  Permutation (Mongo.sort key direction l) l.
Proof.
  unfold Mongo.sort. induction l as [|x xs IH]; cbn [foldr]; [done|].
  rewrite place_permutation. by constructor.
Qed.

Lemma place_sorted (key : string) (direction : Z) (d : doc) (l : list doc) :
  Sorted (λ a b, Mongo.before key direction a b = true) l →
  Sorted (λ a b, Mongo.before key direction a b = true)
    (Mongo.place key direction d l).
Proof.
  induction 1 as [|x xs Hs IH Hhd]; cbn [Mongo.place].
  - by repeat constructor.
  - destruct (Mongo.before key direction d x) eqn:Hdx.
    + constructor; [by constructor | by constructor].
    + constructor; [done|].
      destruct Hhd as [|y ys Hxy]; cbn [Mongo.place].
      * constructor. by apply before_total.
      * destruct (Mongo.before key direction d y); constructor;
          [by apply before_total | done].
Qed.

Lemma sort_sorted (key : string) (direction : Z) (l : list doc) :
  Sorted (λ a b, Mongo.before key direction a b = true)
    (Mongo.sort key direction l).
Proof.
  unfold Mongo.sort. induction l as [|x xs IH]; cbn [foldr].
  - constructor.
  - by apply place_sorted.
Qed.

Lemma newest_first_transitive : Transitive newest_first.
Proof.
  intros a b c. unfold newest_first.
  destruct (created_at_of a), (created_at_of b), (created_at_of c);
    try done. lia.
Qed.

Lemma well_formed_created_at (d : doc) :
  well_formed d = true → ∃ t, d !! "created_at" = Some (VDate t).
Proof.
  unfold well_formed. rewrite !andb_true_iff.
  intros [[_ H] _]. destruct (d !! "created_at") as [[]|]; try done.
  by eexists.
Qed.

Lemma before_newest_first (a b : doc) :
  well_formed a = true → well_formed b = true →
  Mongo.before "created_at" (-1) a b = true → newest_first a b.
Proof.
  intros [ta Ha]%well_formed_created_at [tb Hb]%well_formed_created_at.
  unfold Mongo.before, Mongo.sort_key, newest_first, created_at_of.
  rewrite Ha, Hb. cbn. lia.
Qed.

Lemma sorted_newest_first (l : list doc) :
  Forall (λ d, well_formed d = true) l →
  Sorted (λ a b, Mongo.before "created_at" (-1) a b = true) l →
  StronglySorted newest_first l.
Proof.
  intros Hwf Hs. apply Sorted_StronglySorted.
  { apply newest_first_transitive. }
  induction Hs as [|x xs Hs IH Hhd]; [constructor|].
  inversion Hwf as [|? ? Hx Hxs]; subst. constructor; [by apply IH|].
  destruct Hhd as [|y ys Hxy]; constructor.
  inversion Hxs; subst. by apply before_newest_first.
Qed.

(** *** The active query is the data model's predicate *)

Lemma active_query_currently_active (now : Z) (d : doc) :
  Mongo.satisfies (active_query now) d = currently_active now d.
Proof.
  unfold Mongo.satisfies, active_query, currently_active.
  cbn [forallb existsb Mongo.matches Mongo.matches_cond].
  rewrite !andb_true_r, orb_false_r. rewrite <- andb_assoc. f_equal.
  f_equal.
  - by destruct (d !! "expiration_date") as [[]|].
  - by destruct (d !! "start_date") as [[| | | s |]|]; cbn;
      rewrite ?orb_false_r.
Qed.

Lemma find_active (now : Z) (coll : list doc) :
  Mongo.find (active_query now) coll
  = List.filter (currently_active now) coll.
Proof.
  unfold Mongo.find. apply List.filter_ext. intros d.
  apply active_query_currently_active.
Qed.

(** *** Rendering well-formed documents *)

Lemma convert_field_date (isoformat : ascii → Z → string) (field : string)
    (d : doc) :
  is_optional_date (d !! field) = true →
  ∃ d', convert_field isoformat field d = Return d'
        ∧ ∀ k, k ≠ field → d' !! k = d !! k.
Proof.
  unfold convert_field. intros H.
  destruct (d !! field) as [[| | |t|]|]; try done; cbn [Py.truthy];
    eexists; (split; [done|]); intros k Hk; by rewrite ?lookup_insert_ne.
Qed.

Lemma is_date_optional (o : option value) :
  is_date o = true → is_optional_date o = true.
Proof. by destruct o as [[]|]. Qed.

Lemma serialize_well_formed (isoformat : ascii → Z → string) (d : doc) :
  well_formed d = true → ∃ r, serialize isoformat d = Return r.
Proof.
  unfold well_formed. rewrite !andb_true_iff.
  intros [[[[[[[Hid _] _] Hs] He%is_date_optional] _] Hc%is_date_optional] _].
  unfold serialize. destruct (d !! "_id") as [oid|] eqn:Hoid; [|done].
  set (d0 := <["id" := _]> _).
  assert (∀ k, k ≠ "id" → k ≠ "_id" → d0 !! k = d !! k) as H0.
  { intros k ? ?. subst d0. by rewrite lookup_insert_ne, lookup_delete_ne. }
  cbn [convert_fields].
  destruct (convert_field_date isoformat "start_date" d0) as (d1 & -> & H1).
  { by rewrite H0. }
  destruct (convert_field_date isoformat "expiration_date" d1)
    as (d2 & -> & H2).
  { by rewrite H1, H0. }
  destruct (convert_field_date isoformat "created_at" d2) as (d3 & -> & H3).
  { by rewrite H2, H1, H0. }
  by exists d3.
Qed.

Lemma serialize_each_well_formed (isoformat : ascii → Z → string)
    (l : list doc) :
  Forall (λ d, well_formed d = true) l →
  ∃ result,
    serialize_each isoformat l = Return result
    ∧ Forall2 (λ d r, serialize isoformat d = Return r) l result.
Proof.
  induction 1 as [|d ds Hd Hds (rs & Hrs & Hall)].
  - by exists [].
  - destruct (serialize_well_formed isoformat d Hd) as [r Hr].
    exists (r :: rs). cbn [serialize_each]. rewrite Hr, Hrs.
    split; [done | by constructor].
Qed.

Lemma well_formed_find_sort (q : Mongo.query) (coll : list doc) :
  Forall (λ d, well_formed d = true) coll →
  Forall (λ d, well_formed d = true)
    (Mongo.sort "created_at" (-1) (Mongo.find q coll)).
Proof.
  intros Hwf. eapply Permutation_Forall.
  { symmetry. apply sort_permutation. }
  unfold Mongo.find. rewrite List.Forall_forall in *.
  intros d [Hd _]%filter_In. by apply Hwf.
Qed.

(** *** The active listing *)



(** C10: List(active_only=true) asks the Teacher Directory nothing and does
    not look at the requester: whatever the two usernames (absent, unknown
    or known) and whatever the directory holds, the same store at the same
    time gives the same outcome. *)
Theorem active_listing_ignores_requester (isoformat : ascii → Z → string)
    (w : World) (username1 username2 : option string)
    (teachers : list doc) :
  get_announcements isoformat true username1 w
  = get_announcements isoformat true username2 w
  ∧ fst (get_announcements isoformat true username1
           (set_teachers teachers w))
    = fst (get_announcements isoformat true username2 w).
Proof.
  by rewrite !get_announcements_active.
Qed.

(** *** The management listing *)

Lemma truthy_text (u : string) :
  Py.truthy (VStr u) = negb (bool_decide (u = EmptyString)).
Proof.
  cbn. f_equal. destruct (String.eqb_spec u EmptyString) as [->|Hne].
  - by rewrite bool_decide_eq_true_2.
  - by rewrite bool_decide_eq_false_2.
Qed.

(** The management listing of the whole store, for any requester it is
    given to. *)
Lemma whole_listing (isoformat : ascii → Z → string) (w : World) :
  Forall (λ d, well_formed d = true) (announcements_collection w) →
  ∃ found result,
    serialize_each isoformat
      (Mongo.sort "created_at" (-1) (announcements_collection w))
    = Return result
    ∧ Forall2 (λ d r, serialize isoformat d = Return r) found result
    ∧ Permutation found (announcements_collection w)
    ∧ StronglySorted newest_first found.
Proof.
  intros Hwf. set (found := Mongo.sort _ _ _).
  assert (Forall (λ d, well_formed d = true) found) as Hfound.
  { subst found. rewrite <- (find_everything (announcements_collection w)).
    by apply well_formed_find_sort. }
  destruct (serialize_each_well_formed isoformat found Hfound)
    as (result & Hres & Hall).
  exists found, result. split_and!; [done..| |].
  - apply sort_permutation.
  - apply sorted_newest_first; [done|]. apply sort_sorted.
Qed.

(** C3, as stated, fails: the empty username is given, names no teacher,
    and yet the management listing is not refused. *)
Lemma management_listing_empty_username :
  ¬ (¬ is_teacher sample_world EmptyString →
     fst (get_announcements sample_isoformat false (Some EmptyString)
            sample_world)
     = HTTPException 401 "Authentication required for management access").
Proof.
  intros H. assert (¬ is_teacher sample_world EmptyString) as Hno
    by decide_closed.
  specialize (H Hno). rewrite get_announcements_all in H.
  destruct (whole_listing sample_isoformat sample_world)
    as (found & result & Hres & _); [decide_closed|].
  cbn [Py.truthy String.eqb negb andb] in H. rewrite Hres in H.
  discriminate H.
Qed.

(** C3, amended: when active_only is false, a username that is given and
    not empty must name a teacher, else List fails with Unauthorized (401)
    and changes nothing; when the username is absent or empty, List asks
    the Teacher Directory nothing and returns, rendered and newest first,
    all stored announcements, as it does for a teacher. *)
Theorem management_listing (isoformat : ascii → Z → string) (w : World)
    (username : option string) :
  Forall (λ d, well_formed d = true) (announcements_collection w) →
  (∀ u, username = Some u → u ≠ EmptyString → ¬ is_teacher w u →
     get_announcements isoformat false username w
     = (HTTPException 401 "Authentication required for management access",
        w))
  ∧ (username = None ∨ username = Some EmptyString
     ∨ (∃ u, username = Some u ∧ is_teacher w u) →
     ∃ found result,
       get_announcements isoformat false username w = (Return result, w)
       ∧ Forall2 (λ d r, serialize isoformat d = Return r) found result
       ∧ Permutation found (announcements_collection w)
       ∧ StronglySorted newest_first found)
  ∧ (username = None ∨ username = Some EmptyString →
     ∀ teachers,
       fst (get_announcements isoformat false username
              (set_teachers teachers w))
       = fst (get_announcements isoformat false username w)).
Proof.
  intros Hwf. rewrite !get_announcements_all. split_and!.
  - intros u -> Hu Hno. rewrite truthy_text.
    by rewrite !bool_decide_eq_false_2.
  - destruct (whole_listing isoformat w Hwf) as (found & result & Hres & H).
    intros Hcase. exists found, result. split; [|done].
    destruct Hcase as [-> | [-> | (u & -> & Hu)]]; [by rewrite Hres|..].
    + rewrite truthy_text. by rewrite bool_decide_eq_true_2, Hres.
    + rewrite (bool_decide_eq_true_2 _ Hu), andb_false_r. by rewrite Hres.
  - intros [-> | ->] teachers; rewrite get_announcements_all; [done|].
    rewrite truthy_text. by rewrite bool_decide_eq_true_2.
Qed.

Lemma management_listing_witness :
  (∀ u, Some "mallory" = Some u → u ≠ EmptyString →
     ¬ is_teacher sample_world u →
     get_announcements sample_isoformat false (Some "mallory") sample_world
     = (HTTPException 401 "Authentication required for management access",
        sample_world))
  ∧ ∃ found result,
      get_announcements sample_isoformat false None sample_world
      = (Return result, sample_world)
      ∧ Forall2 (λ d r, serialize sample_isoformat d = Return r) found result
      ∧ Permutation found (announcements_collection sample_world)
      ∧ StronglySorted newest_first found.
Proof.
  split.
  - apply (management_listing sample_isoformat sample_world (Some "mallory")).
    decide_closed.
  - apply (management_listing sample_isoformat sample_world None);
      [decide_closed | by left].
Defined.

(** ** Creating *)

Lemma encode_doc_insert (k : string) (p : pyvalue) (d : pydoc) :
  Mongo.encode_doc (<[k := p]> d)
  = <[k := Mongo.encode p]> (Mongo.encode_doc d).
Proof. apply fmap_insert. Qed.

Lemma encode_doc_empty : Mongo.encode_doc ∅ = ∅.
Proof. apply fmap_empty. Qed.

Lemma encode_optional_date (o : option datetime) :
  Mongo.encode (optional_date o) = stored_optional_date o.
Proof. by destruct o. Qed.

Lemma create_announcement_run (a : AnnouncementCreate.t) (username : string)
    (w : World) :
  is_teacher w username →
  create_announcement a username w
  = match AnnouncementCreate.expiration_date a with
    | Aware _ _ => (Uncaught "TypeError", tick w)
    | Naive e =>
        if (e <=? clock w (ticks w))%Z then
          (HTTPException 400 "Expiration date must be in the future", tick w)
        else
          match AnnouncementCreate.start_date a with
          | Some (Aware _ _) => (Uncaught "TypeError", tick w)
          | Some (Naive s) =>
              if (e <=? s)%Z then
                (HTTPException 400
                   "Start date must be before expiration date", tick w)
              else created a username w
          | None => created a username w
          end
    end.
Proof.
  intros Ht. unfold create_announcement.
  rewrite run_bind, verify_teacher_known by done. run.
  assert (∀ oid, Mongo.insert_one oid
            (<["title" := Plain (VStr (AnnouncementCreate.title a))]>
            (<["message" := Plain (VStr (AnnouncementCreate.message a))]>
            (<["start_date" :=
                 optional_date (AnnouncementCreate.start_date a)]>
            (<["expiration_date" :=
                 of_datetime (AnnouncementCreate.expiration_date a)]>
            (<["created_by" := Plain (VStr username)]>
            (<["created_at" := Plain (VDate (clock w (S (ticks w))))]>
            (<["is_active" :=
                 Plain (VBool (AnnouncementCreate.is_active a))]> ∅)))))))
            (announcements_collection w)
          = announcements_collection w
            ++ [stored_announcement oid a username (clock w (S (ticks w)))])
    as Hdoc.
  { intros oid. unfold Mongo.insert_one, stored_announcement, stored_date.
    by rewrite !encode_doc_insert, encode_doc_empty, encode_optional_date. }
  unfold created.
  destruct (AnnouncementCreate.expiration_date a) as [e|utc offset] eqn:He;
    cbn [of_datetime Py.le Py.le_plain reject_when]; [|done].
  destruct (e <=? _)%Z; [done|].
  destruct (AnnouncementCreate.start_date a) as [[s|utc offset]|] eqn:Hs;
    cbn [of_datetime Py.ge Py.le Py.le_plain reject_when]; [|done|].
  - destruct (e <=? s)%Z; [done|].
    cbn [tick announcements_collection ticks clock fresh_oid
         set_announcements Py.truthy negb].
    by rewrite <- Hdoc.
  - cbn [tick announcements_collection ticks clock fresh_oid
         set_announcements Py.truthy negb].
    by rewrite <- Hdoc.
Qed.

Lemma dates_accepted_iff (now : Z) (start : option datetime)
    (expiration : datetime) :
  dates_accepted now start expiration
  ↔ naive_dates start expiration ∧ ¬ dates_rejected now start expiration.
Proof.
  unfold dates_accepted, naive_dates, dates_rejected. split.
  - intros (e & -> & Hnow & Hs). split.
    + split; [done|]. by destruct start as [[]|].
    + intros (e' & [= <-] & [?|(s & -> & ?)]); lia.
  - intros [[He Hs] Hno]. destruct expiration as [e|]; [|done].
    exists e. split; [done|]. split.
    + destruct (Z.lt_ge_cases (now) e); [done|].
      exfalso. apply Hno. exists e. split; [done|]. left. lia.
    + destruct start as [[s|]|]; [|done|done].
      destruct (Z.lt_ge_cases s e); [done|].
      exfalso. apply Hno. exists e. split; [done|]. right. by exists s.
Qed.

Lemma create_accepted (a : AnnouncementCreate.t) (username : string)
    (w : World) :
  is_teacher w username →
  dates_accepted (clock w (ticks w)) (AnnouncementCreate.start_date a)
    (AnnouncementCreate.expiration_date a) →
  create_announcement a username w = created a username w.
Proof.
  intros Ht (e & He & Hnow & Hs). rewrite create_announcement_run by done.
  rewrite He. destruct (Z.leb_spec e (clock w (ticks w))); [lia|].
  destruct (AnnouncementCreate.start_date a) as [[s|]|]; [|done|done].
  destruct (Z.leb_spec e s); [lia|done].
Qed.

Lemma create_rejected (a : AnnouncementCreate.t) (username : string)
    (w : World) :
  is_teacher w username →
  dates_rejected (clock w (ticks w)) (AnnouncementCreate.start_date a)
    (AnnouncementCreate.expiration_date a) →
  ∃ detail,
    create_announcement a username w = (HTTPException 400 detail, tick w).
Proof.
  intros Ht (e & He & Hrej). rewrite create_announcement_run by done.
  rewrite He. destruct (Z.leb_spec e (clock w (ticks w))); [by eexists|].
  destruct Hrej as [?|(s & -> & Hs)]; [lia|].
  destruct (Z.leb_spec e s); [by eexists|lia].
Qed.

Lemma dates_rejected_or_accepted (now : Z) (start : option datetime)
    (expiration : datetime) :
  naive_dates start expiration →
  dates_rejected now start expiration ∨ dates_accepted now start expiration.
Proof.
  intros [He Hs]. destruct expiration as [e|]; [|done].
  destruct (Z.le_gt_cases e now).
  { left. exists e. split; [done|]. by left. }
  destruct start as [[s|]|]; [|done|].
  - destruct (Z.le_gt_cases e s).
    + left. exists e. split; [done|]. right. by exists s.
    + right. exists e. split_and!; [done|lia|lia].
  - right. exists e. split_and!; [done|lia|done].
Qed.

(** C4, amended: a Create request by a known teacher whose dates
    carry no UTC offset fails with InvalidInput (400) exactly when the
    expiration date is not strictly after the time the handler reads from
    the clock, or a start date is given and is not strictly before the
    expiration date, and then stores nothing; otherwise one announcement is
    appended to the store, with the request's title and message, its dates
    cut to the millisecond, which is what the store keeps of a datetime,
    created_by the requester, created_at the time read from the clock when
    the document is built, cut to the millisecond as well, and is_active as
    requested, which is true when the request leaves it out. *)
Theorem create_announcement_checks_dates (a : AnnouncementCreate.t)
    (username : string) (w : World) :
  is_teacher w username →
  naive_dates (AnnouncementCreate.start_date a)
    (AnnouncementCreate.expiration_date a) →
  let rejected :=
    dates_rejected (clock w (ticks w)) (AnnouncementCreate.start_date a)
      (AnnouncementCreate.expiration_date a) in
  ((∃ detail,
      fst (create_announcement a username w) = HTTPException 400 detail)
   ↔ rejected)
  ∧ (rejected →
     announcements_collection (snd (create_announcement a username w))
     = announcements_collection w)
  ∧ (¬ rejected →
     ∃ oid d,
       fst (create_announcement a username w)
       = Return (<["message" :=
                     "Announcement '" +:+ AnnouncementCreate.title a
                     +:+ "' created successfully"]> (<["id" := oid]> ∅))
       ∧ announcements_collection (snd (create_announcement a username w))
         = announcements_collection w ++ [d]
       ∧ d !! "_id" = Some (VOid oid)
       ∧ d !! "title" = Some (VStr (AnnouncementCreate.title a))
       ∧ d !! "message" = Some (VStr (AnnouncementCreate.message a))
       ∧ d !! "start_date"
         = Some match AnnouncementCreate.start_date a with
                | Some start => stored_date start
                | None => VNull
                end
       ∧ d !! "expiration_date"
         = Some (stored_date (AnnouncementCreate.expiration_date a))
       ∧ d !! "created_by" = Some (VStr username)
       ∧ d !! "created_at"
         = Some (VDate (Mongo.truncate (clock w (S (ticks w)))))
       ∧ d !! "is_active" = Some (VBool (AnnouncementCreate.is_active a)))
  ∧ (∀ title message start expiration,
       AnnouncementCreate.is_active
         (AnnouncementCreate.make title message start expiration None)
       = true).
Proof.
  intros Ht Hnaive rejected. subst rejected.
  destruct (dates_rejected_or_accepted (clock w (ticks w)) _ _ Hnaive)
    as [Hrej|Hacc].
  - destruct (create_rejected a username w Ht Hrej) as [detail ->].
    split_and!; [|done| |done].
    + split; [done | by exists detail].
    + done.
  - pose proof Hacc as [_ Hno]%dates_accepted_iff.
    rewrite create_accepted by done. unfold created.
    cbn [fst snd announcements_collection set_announcements].
    split_and!; [| | |done].
    + split; [by intros [? ?] | done].
    + done.
    + intros _. do 2 eexists. split_and!; try done.
Qed.

Lemma create_announcement_checks_dates_witness :
  (∃ detail,
     fst (create_announcement
            (AnnouncementCreate.make "Late" "Too late" None (Naive 40) None)
            "mchen" sample_world)
     = HTTPException 400 detail)
  ∧ ∃ oid d,
      fst (create_announcement
             (AnnouncementCreate.make "Fair" "Science fair" None
                (Naive day_2024_12_31) None)
             "mchen" new_year_world)
      = Return (<["message" := "Announcement 'Fair' created successfully"]>
                (<["id" := oid]> ∅))
      ∧ announcements_collection
          (snd (create_announcement
                  (AnnouncementCreate.make "Fair" "Science fair" None
                     (Naive day_2024_12_31) None)
                  "mchen" new_year_world))
        = announcements_collection new_year_world ++ [d]
      ∧ d !! "expiration_date" = Some (VDate day_2024_12_31)
      ∧ d !! "created_by" = Some (VStr "mchen")
      ∧ d !! "created_at" = Some (VDate (day_2024_01_01 + 123000))
      ∧ d !! "is_active" = Some (VBool true).
Proof.
  split.
  - pose proof (create_announcement_checks_dates
                  (AnnouncementCreate.make "Late" "Too late" None (Naive 40)
                     None)
                  "mchen" sample_world ltac:(decide_closed)
                  ltac:(by split)) as H.
    cbv zeta in H. destruct H as (Hiff & _). apply Hiff.
    exists 40%Z. split; [done|]. left. vm_compute; discriminate.
  - pose proof (create_announcement_checks_dates
                  (AnnouncementCreate.make "Fair" "Science fair" None
                     (Naive day_2024_12_31) None)
                  "mchen" new_year_world ltac:(decide_closed)
                  ltac:(by split)) as H.
    cbv zeta in H. destruct H as (_ & _ & Hok & _).
    destruct Hok as (oid & d & H1 & H2 & _ & _ & _ & _ & H3 & H4 & H5 & H6).
    + intros (e & [= <-] & [Hle | (s & [=] & _)]). by vm_compute in Hle.
    + by exists oid, d.
Defined.

(** C4, as stated, fails twice.  A request whose
    expiration date carries a UTC offset, here 2023-06-01T00:00:00Z looked
    at on 2024-01-01, is not answered with InvalidInput although the date
    is long past: comparing it with the naive reading of the clock raises
    [TypeError].  And the announcement a valid request leaves in the store
    has not the clock's reading as created_at, but that reading cut to the
    millisecond. *)
Lemma create_announcement_not_as_stated :
  is_teacher new_year_world "mchen"
  ∧ (day_2023_06_01 <= clock new_year_world (ticks new_year_world))%Z
  ∧ create_announcement
      (AnnouncementCreate.make "Late" "Too late" None
         (Aware day_2023_06_01 0) None)
      "mchen" new_year_world
    = (Uncaught "TypeError", tick new_year_world)
  ∧ ∃ d,
      announcements_collection
        (snd (create_announcement
                (AnnouncementCreate.make "Fair" "Science fair" None
                   (Naive day_2024_12_31) None)
                "mchen" new_year_world))
      = [d]
      ∧ clock new_year_world 1 = (day_2024_01_01 + 123456)%Z
      ∧ d !! "created_at" = Some (VDate (day_2024_01_01 + 123000))
      ∧ d !! "created_at" ≠ Some (VDate (clock new_year_world 1)).
Proof.
  assert (is_teacher new_year_world "mchen") as Ht by decide_closed.
  split; [done|]. split; [vm_compute; discriminate|].
  split; [by rewrite create_announcement_run|].
  rewrite create_accepted; [|done|].
  2:{ exists day_2024_12_31.
      split_and!; [done | vm_compute; reflexivity | done]. }
  eexists. split; [reflexivity|]. split; [vm_compute; reflexivity|].
  assert (Mongo.truncate (clock new_year_world 1)
          = (day_2024_01_01 + 123000)%Z) as Hcut
    by (vm_compute; reflexivity).
  unfold stored_announcement.
  rewrite !lookup_insert_ne, lookup_insert_eq by done.
  change (S (ticks new_year_world)) with 1%nat. rewrite Hcut.
  split; [done | intros [=]].
Qed.

(** ** Updating *)

Lemma well_formed_dates (d : doc) :
  well_formed d = true →
  (∃ e, d !! "expiration_date" = Some (VDate e))
  ∧ is_optional_date (d !! "start_date") = true.
Proof.
  unfold well_formed. rewrite !andb_true_iff.
  intros [[[[[[[_ _] _] Hs] He] _] _] _]. split; [|done].
  destruct (d !! "expiration_date") as [[]|]; try done. by eexists.
Qed.

(** What [update_announcement] does once the requester is a teacher and the
    identifier finds a well-formed announcement: an effective date that
    carries a UTC offset makes a comparison raise [TypeError]. *)
Lemma update_announcement_steps (id oid : string)
    (patch : AnnouncementUpdate.t) (username : string) (w : World)
    (existing : doc) :
  is_teacher w username →
  Bson.ObjectId id = Some oid →
  Mongo.find_one (by_id (VOid oid)) (announcements_collection w)
  = Some existing →
  well_formed existing = true →
  update_announcement id patch username w
  = match effective_expiration patch existing with
    | Some (Naive e) =>
        if (e <=? clock w (ticks w))%Z then
          (HTTPException 400 "Expiration date must be in the future", tick w)
        else
          match effective_start patch existing with
          | Some (Aware _ _) => (Uncaught "TypeError", tick w)
          | Some (Naive s) =>
              if (e <=? s)%Z then
                (HTTPException 400
                   "Start date must be before expiration date", tick w)
              else apply_patch oid patch w
          | None => apply_patch oid patch w
          end
    | _ => (Uncaught "TypeError", tick w)
    end.
Proof.
  intros Ht Hoid Hfind Hwf. unfold by_id, apply_patch in *.
  unfold update_announcement.
  rewrite run_bind, verify_teacher_known, Hoid by done. run.
  pose proof (found_is_truthy (VOid oid) _ existing ltac:(done) Hfind)
    as Htruthy.
  rewrite Hfind, Htruthy. cbn [negb].
  destruct (well_formed_dates existing Hwf) as [[e0 He0] Hs0].
  unfold effective_expiration, effective_start, expiration_of, start_of.
  rewrite He0. cbn [fmap option_fmap option_map].
  assert (match AnnouncementUpdate.start_date patch with
          | Some d => of_datetime d
          | None => Plain (default VNull (existing !! "start_date"))
          end
          = match match AnnouncementUpdate.start_date patch with
                  | Some d => Some d
                  | None => Naive <$> match existing !! "start_date" with
                                      | Some (VDate t) => Some t
                                      | _ => None
                                      end
                  end with
            | Some d => of_datetime d
            | None => Plain VNull
            end) as Hfs.
  { destruct (AnnouncementUpdate.start_date patch); [done|].
    by destruct (existing !! "start_date") as [[]|]. }
  rewrite Hfs. clear Hfs.
  destruct (AnnouncementUpdate.expiration_date patch) as [[e|utc offset]|];
    run; cbn [of_datetime Py.is_true Py.truthy Py.le Py.le_plain reject_when];
    run; [|done|].
  all: match goal with
       | |- context [(?e <=? clock ?w ?n)%Z] =>
           destruct (e <=? clock w n)%Z; [done|]
       end; run.
  all: destruct (match AnnouncementUpdate.start_date patch with
                 | Some d => Some d
                 | None => _
                 end) as [[s|utc offset]|];
    cbn [of_datetime Py.is_true Py.truthy Py.ge Py.le Py.le_plain
         reject_when]; run; [|done|].
  all: try match goal with
           | |- context [(?e <=? ?s)%Z] => destruct (e <=? s)%Z; [done|]
           end; run.
  all: unfold Py.dict_truthy; rewrite negb_involutive;
    (destruct (bool_decide (build_update_doc patch = ∅)); [done|]); run.
  all: change (announcements_collection (tick w))
         with (announcements_collection w);
    destruct (Mongo.update_one _ _ _) as [coll n]; run;
    by destruct (n =? 0)%Z.
Qed.

Lemma update_announcement_run (id oid : string)
    (patch : AnnouncementUpdate.t) (username : string) (w : World)
    (existing : doc) (e : Z) :
  is_teacher w username →
  Bson.ObjectId id = Some oid →
  Mongo.find_one (by_id (VOid oid)) (announcements_collection w)
  = Some existing →
  well_formed existing = true →
  effective_expiration patch existing = Some (Naive e) →
  update_announcement id patch username w
  = if (e <=? clock w (ticks w))%Z then
      (HTTPException 400 "Expiration date must be in the future", tick w)
    else
      match effective_start patch existing with
      | Some (Aware _ _) => (Uncaught "TypeError", tick w)
      | Some (Naive s) =>
          if (e <=? s)%Z then
            (HTTPException 400 "Start date must be before expiration date",
             tick w)
          else apply_patch oid patch w
      | None => apply_patch oid patch w
      end.
Proof.
  intros Ht Hoid Hfind Hwf He.
  rewrite (update_announcement_steps id oid patch username w existing)
    by done.
  by rewrite He.
Qed.

Lemma update_one_found (q : Mongo.query) (upd : pydoc) (coll : list doc)
    (existing : doc) :
  Mongo.find_one q coll = Some existing →
  ∃ pre post,
    coll = pre ++ existing :: post
    ∧ Mongo.update_one q upd coll
      = (pre ++ (Mongo.encode_doc upd ∪ existing) :: post,
         if bool_decide (Mongo.encode_doc upd ∪ existing = existing)
         then 0%Z else 1%Z).
Proof.
  unfold Mongo.find_one. induction coll as [|d ds IH]; [done|].
  cbn [List.find Mongo.update_one]. destruct (Mongo.satisfies q d).
  - intros [= ->]. by exists [], ds.
  - intros (pre & post & -> & Hu)%IH. exists (d :: pre), post.
    by rewrite Hu.
Qed.

Lemma update_one_missing (q : Mongo.query) (upd : pydoc) (coll : list doc) :
  Mongo.find_one q coll = None → Mongo.update_one q upd coll = (coll, 0%Z).
Proof.
  unfold Mongo.find_one. induction coll as [|d ds IH]; [done|].
  cbn [List.find Mongo.update_one]. destruct (Mongo.satisfies q d); [done|].
  intros Hn. by rewrite IH.
Qed.

(** The update document holds exactly the fields present in the patch. *)
Lemma lookup_set_field {A : Type} (key : string) (inject : A → pyvalue)
    (o : option A) (m : pydoc) (k : string) :
  set_field key inject o m !! k
  = match o with
    | Some x => if bool_decide (k = key) then Some (inject x) else m !! k
    | None => m !! k
    end.
Proof.
  unfold set_field. destruct o as [x|]; [|done].
  case_bool_decide as Hk.
  - subst. apply lookup_insert_eq.
  - by apply lookup_insert_ne.
Qed.

(** What the store is sent for a field is what the patch says about it. *)
Lemma lookup_build_update_doc (patch : AnnouncementUpdate.t) (k : string) :
  Mongo.encode_doc (build_update_doc patch) !! k = patch_field patch k.
Proof.
  unfold Mongo.encode_doc. rewrite lookup_fmap.
  unfold build_update_doc, patch_field. rewrite !lookup_set_field.
  rewrite lookup_empty.
  destruct patch as [[?|] [?|] [?|] [?|] [?|]]; cbn;
    repeat case_bool_decide; subst; done.
Qed.

Lemma build_update_doc_empty (patch : AnnouncementUpdate.t) :
  build_update_doc patch = ∅ ↔ empty_patch patch.
Proof.
  unfold empty_patch. split.
  - intros He.
    pose proof (lookup_build_update_doc patch "title") as H1.
    pose proof (lookup_build_update_doc patch "message") as H2.
    pose proof (lookup_build_update_doc patch "start_date") as H3.
    pose proof (lookup_build_update_doc patch "expiration_date") as H4.
    pose proof (lookup_build_update_doc patch "is_active") as H5.
    rewrite He in H1, H2, H3, H4, H5.
    unfold Mongo.encode_doc in *. rewrite fmap_empty, lookup_empty in *.
    unfold patch_field in *. cbn in *.
    by destruct patch as [[?|] [?|] [?|] [?|] [?|]].
  - destruct patch as [t m s e a]. cbn. by intros (-> & -> & -> & -> & ->).
Qed.

Lemma encode_doc_empty_iff (d : pydoc) : Mongo.encode_doc d = ∅ ↔ d = ∅.
Proof. apply fmap_empty_iff. Qed.

(** An Update whose effective dates pass the date rules goes on to the
    write. *)
Lemma update_accepted (id oid : string) (patch : AnnouncementUpdate.t)
    (username : string) (w : World) (existing : doc) (e : datetime) :
  is_teacher w username →
  Bson.ObjectId id = Some oid →
  Mongo.find_one (by_id (VOid oid)) (announcements_collection w)
  = Some existing →
  well_formed existing = true →
  effective_expiration patch existing = Some e →
  dates_accepted (clock w (ticks w)) (effective_start patch existing) e →
  update_announcement id patch username w = apply_patch oid patch w.
Proof.
  intros Ht Hoid Hfind Hwf He (e' & -> & Hnow & Hs).
  rewrite (update_announcement_run id oid patch username w existing e')
    by done.
  destruct (Z.leb_spec e' (clock w (ticks w))); [lia|].
  destruct (effective_start patch existing) as [[s|]|]; [|done|done].
  destruct (Z.leb_spec e' s); [lia|done].
Qed.

(** C2, amended: Update checks the date rules on the effective
    values, for each of start_date and expiration_date the patch value if
    present and else the stored one, as long as these carry no UTC offset:
    when the effective expiration is not strictly after the time read from
    the clock, or the effective start is not strictly before the effective
    expiration, it fails with InvalidInput (400) and the store is
    unchanged.  A patch that only sets expiration_date to a past time, or
    to a time not after the stored start_date, is such a case. *)
Theorem update_validates_effective_dates (id oid : string)
    (patch : AnnouncementUpdate.t) (username : string) (w : World)
    (existing : doc) (e : datetime) :
  is_teacher w username →
  Bson.ObjectId id = Some oid →
  Mongo.find_one (by_id (VOid oid)) (announcements_collection w)
  = Some existing →
  well_formed existing = true →
  effective_expiration patch existing = Some e →
  dates_rejected (clock w (ticks w)) (effective_start patch existing) e →
  ∃ detail,
    fst (update_announcement id patch username w)
    = HTTPException 400 detail
    ∧ announcements_collection (snd (update_announcement id patch username w))
      = announcements_collection w.
Proof.
  intros Ht Hoid Hfind Hwf He (e' & -> & Hrej).
  rewrite (update_announcement_run id oid patch username w existing e')
    by done.
  destruct (Z.leb_spec e' (clock w (ticks w))) as [Hpast|Hfuture];
    [by eexists|].
  destruct Hrej as [?|(s & -> & Hs)]; [lia|].
  rewrite (proj2 (Z.leb_le e' s)) by done. by eexists.
Qed.

Lemma update_validates_effective_dates_witness :
  ∃ detail,
    fst (update_announcement "abcdefabcdefabcdefabcdef"
           (sample_patch None None None (Some (Naive day_2023_06_01)) None)
           "mchen" calendar_world)
    = HTTPException 400 detail
    ∧ announcements_collection
        (snd (update_announcement "abcdefabcdefabcdefabcdef"
                (sample_patch None None None (Some (Naive day_2023_06_01))
                   None)
                "mchen" calendar_world))
      = announcements_collection calendar_world.
Proof.
  apply (update_validates_effective_dates "abcdefabcdefabcdefabcdef"
           "abcdefabcdefabcdefabcdef"
           (sample_patch None None None (Some (Naive day_2023_06_01)) None)
           "mchen" calendar_world
           (sample_announcement "abcdefabcdefabcdefabcdef" "Term"
              (VDate day_2024_01_01) day_2024_12_31 true day_2023_12_15)
           (Naive day_2023_06_01)).
  - decide_closed.
  - vm_compute; reflexivity.
  - vm_compute; reflexivity.
  - vm_compute; reflexivity.
  - vm_compute; reflexivity.
  - exists day_2023_06_01. split; [done|]. left. vm_compute; discriminate.
Defined.

(** C2, as stated, fails on a patch date that carries a UTC offset: the
    patch sets expiration_date to
    2023-06-01T00:00:00Z and is looked at on 2024-02-15, so that the
    effective expiration is not in the future, yet the answer is not
    InvalidInput: comparing the date with the naive reading of the clock
    raises [TypeError]. *)
Lemma update_aware_date_not_validated :
  is_teacher calendar_world "mchen"
  ∧ stored calendar_world "abcdefabcdefabcdefabcdef"
  ∧ effective_expiration
      (sample_patch None None None (Some (Aware day_2023_06_01 0)) None)
      (sample_announcement "abcdefabcdefabcdefabcdef" "Term"
         (VDate day_2024_01_01) day_2024_12_31 true day_2023_12_15)
    = Some (Aware day_2023_06_01 0)
  ∧ (day_2023_06_01 <= clock calendar_world (ticks calendar_world))%Z
  ∧ update_announcement "abcdefabcdefabcdefabcdef"
      (sample_patch None None None (Some (Aware day_2023_06_01 0)) None)
      "mchen" calendar_world
    = (Uncaught "TypeError", tick calendar_world).
Proof.
  split_and!; [decide_closed | decide_closed | done | |].
  - vm_compute; discriminate.
  - vm_compute; reflexivity.
Qed.

(** C5, amended: an Update whose patch has no field present
    fails with InvalidInput (400) and changes nothing, for every stored
    announcement; the reason given is the empty patch exactly when the
    stored dates pass the date rules at the time of the request, and else
    the date rule that fails, because the date checks run on the effective
    values before the check for an empty patch. *)
Theorem update_empty_patch (id oid : string) (patch : AnnouncementUpdate.t)
    (username : string) (w : World) (existing : doc) (e : Z) :
  is_teacher w username →
  Bson.ObjectId id = Some oid →
  Mongo.find_one (by_id (VOid oid)) (announcements_collection w)
  = Some existing →
  well_formed existing = true →
  expiration_of existing = Some e →
  empty_patch patch →
  ∃ detail,
    fst (update_announcement id patch username w)
    = HTTPException 400 detail
    ∧ announcements_collection (snd (update_announcement id patch username w))
      = announcements_collection w
    ∧ (detail = "No fields provided for update"
       ↔ ¬ dates_rejected (clock w (ticks w)) (Naive <$> start_of existing)
             (Naive e)).
Proof.
  intros Ht Hoid Hfind Hwf He Hempty.
  assert (effective_expiration patch existing = Some (Naive e)) as Hee.
  { unfold effective_expiration. destruct Hempty as (_ & _ & _ & -> & _).
    by rewrite He. }
  assert (effective_start patch existing = Naive <$> start_of existing)
    as Hes.
  { unfold effective_start. by destruct Hempty as (_ & _ & -> & _ & _). }
  rewrite (update_announcement_run id oid patch username w existing e)
    by done.
  rewrite Hes. unfold dates_rejected, apply_patch.
  rewrite (bool_decide_eq_true_2 _ (proj2 (build_update_doc_empty _) Hempty)).
  destruct (Z.leb_spec e (clock w (ticks w))) as [Hpast|Hfuture].
  { eexists. split_and!; [done..|]. split; [done|]. intros [].
    exists e. split; [done|]. by left. }
  destruct (start_of existing) as [s|]; cbn [fmap option_fmap option_map].
  - destruct (Z.leb_spec e s) as [Hes'|Hes'].
    + eexists. split_and!; [done..|]. split; [done|].
      intros []. exists e. split; [done|]. right. by exists s.
    + eexists. split_and!; [done..|]. split; [|done].
      intros _ (e' & [= <-] & [?|(s' & [= <-] & ?)]); lia.
  - eexists. split_and!; [done..|]. split; [|done].
    intros _ (e' & [= <-] & [?|(s' & ? & ?)]); [lia|done].
Qed.

Lemma update_empty_patch_witness :
  ∃ detail,
    fst (update_announcement "aaaaaaaaaaaaaaaaaaaaaaaa"
           (sample_patch None None None None None) "mchen" sample_world)
    = HTTPException 400 detail
    ∧ announcements_collection
        (snd (update_announcement "aaaaaaaaaaaaaaaaaaaaaaaa"
                (sample_patch None None None None None) "mchen"
                sample_world))
      = announcements_collection sample_world
    ∧ (detail = "No fields provided for update"
       ↔ ¬ dates_rejected (clock sample_world (ticks sample_world)) None
             (Naive 100)).
Proof.
  apply (update_empty_patch "aaaaaaaaaaaaaaaaaaaaaaaa"
           "aaaaaaaaaaaaaaaaaaaaaaaa"
           (sample_patch None None None None None) "mchen" sample_world
           (sample_announcement "aaaaaaaaaaaaaaaaaaaaaaaa" "A" VNull 100
              true 5)
           100%Z).
  - decide_closed.
  - vm_compute; reflexivity.
  - vm_compute; reflexivity.
  - vm_compute; reflexivity.
  - vm_compute; reflexivity.
  - done.
Defined.

(** C5, as stated, fails on the stored announcement D, which has
    expired: the teacher's empty patch is refused
    with status 400, but the reason given is the expiration date, not the
    empty patch. *)
Lemma update_empty_patch_on_expired :
  is_teacher sample_world "mchen"
  ∧ stored sample_world "dddddddddddddddddddddddd"
  ∧ empty_patch (sample_patch None None None None None)
  ∧ update_announcement "dddddddddddddddddddddddd"
      (sample_patch None None None None None) "mchen" sample_world
    = (HTTPException 400 "Expiration date must be in the future",
       tick sample_world)
  ∧ fst (update_announcement "dddddddddddddddddddddddd"
           (sample_patch None None None None None) "mchen" sample_world)
    ≠ HTTPException 400 "No fields provided for update".
Proof.
  split_and!; [decide_closed | decide_closed | done | vm_compute; reflexivity|].
  vm_compute. discriminate.
Qed.

(** C6: an Update that passes the teacher check, finds its announcement,
    passes the date rules and carries a field fails with StorageError (500)
    when the store reports that it modified no record. *)
Theorem update_reports_storage_error (id oid : string)
    (patch : AnnouncementUpdate.t) (username : string) (w : World)
    (existing : doc) (e : datetime) :
  is_teacher w username →
  Bson.ObjectId id = Some oid →
  Mongo.find_one (by_id (VOid oid)) (announcements_collection w)
  = Some existing →
  well_formed existing = true →
  effective_expiration patch existing = Some e →
  dates_accepted (clock w (ticks w)) (effective_start patch existing) e →
  ¬ empty_patch patch →
  snd (Mongo.update_one (by_id (VOid oid)) (build_update_doc patch)
         (announcements_collection w)) = 0%Z →
  fst (update_announcement id patch username w)
  = HTTPException 500 "Failed to update announcement".
Proof.
  intros Ht Hoid Hfind Hwf He Hok Hfields Hzero.
  rewrite (update_accepted id oid patch username w existing e) by done.
  unfold apply_patch.
  rewrite bool_decide_eq_false_2 by by rewrite build_update_doc_empty.
  destruct (Mongo.update_one _ _ _) as [coll n]. cbn in Hzero.
  by subst n.
Qed.

Lemma update_reports_storage_error_witness :
  fst (update_announcement "aaaaaaaaaaaaaaaaaaaaaaaa"
         (sample_patch (Some "A") None None None None) "mchen" sample_world)
  = HTTPException 500 "Failed to update announcement".
Proof.
  apply (update_reports_storage_error "aaaaaaaaaaaaaaaaaaaaaaaa"
           "aaaaaaaaaaaaaaaaaaaaaaaa"
           (sample_patch (Some "A") None None None None) "mchen"
           sample_world
           (sample_announcement "aaaaaaaaaaaaaaaaaaaaaaaa" "A" VNull 100
              true 5)
           (Naive 100)).
  - decide_closed.
  - vm_compute; reflexivity.
  - vm_compute; reflexivity.
  - vm_compute; reflexivity.
  - vm_compute; reflexivity.
  - exists 100%Z. split_and!; [done | vm_compute; reflexivity | done].
  - intros (Htitle & _). by vm_compute in Htitle.
  - vm_compute; reflexivity.
Defined.

(** *** What an update leaves alone *)

Lemma frame_ret {A : Type} (a : A) : frame (mret a : M A).
Proof. done. Qed.

Lemma frame_raise {A : Type} (status_code : Z) (detail : string) :
  frame (raise status_code detail : M A).
Proof. done. Qed.

Lemma frame_throw {A : Type} (exn : string) : frame (throw exn : M A).
Proof. done. Qed.

Lemma frame_datetime_now : frame datetime_now.
Proof. done. Qed.

Lemma frame_bind {A B : Type} (m : M A) (f : A → M B) :
  frame m → (∀ a, frame (f a)) → frame (m ≫= f).
Proof.
  intros Hm Hf w. rewrite run_bind. specialize (Hm w).
  destruct (m w) as [[a|s d|e] w']; cbn [snd] in *; [|done..].
  by rewrite Hf.
Qed.

Lemma frame_reject_when (test : option bool) (status_code : Z)
    (detail : string) :
  frame (reject_when test status_code detail).
Proof. by destruct test as [[]|]. Qed.

Lemma frame_verify_teacher (username detail : string) :
  frame (verify_teacher username detail).
Proof.
  apply frame_bind; [done|]. intros teacher. by destruct (not_found teacher).
Qed.

Create HintDb frames discriminated.

#[local] Hint Resolve frame_ret frame_raise frame_throw frame_datetime_now
  frame_reject_when frame_verify_teacher : frames.

Ltac frames :=
  repeat first
    [ apply frame_bind; [|intros ?]
    | match goal with
      | |- frame (if ?b then _ else _) => destruct b
      | |- frame (match ?x with _ => _ end) => destruct x
      end
    | solve [auto with frames] ].

Lemma ensures_bind {A B : Type} (P : list doc → Prop)
    (R : list doc → outcome B → list doc → Prop) (m : M A) (f : A → M B) :
  frame m →
  (∀ old s d, R old (HTTPException s d) old) →
  (∀ old e, R old (Uncaught e) old) →
  (∀ a, ensures P R (f a)) →
  ensures P R (m ≫= f).
Proof.
  intros Hm Hs He Hf w HP. rewrite run_bind. specialize (Hm w).
  destruct (m w) as [[a|s d|e] w']; cbn [fst snd] in *.
  - rewrite <- Hm in *. by apply Hf.
  - rewrite Hm. apply Hs.
  - rewrite Hm. apply He.
Qed.

Lemma updated_failure {A : Type} (id : string) (upd : doc)
    (old : list doc) (out : outcome A) :
  (∀ r, out ≠ Return r) → updated id upd old out old.
Proof. intros H. by left. Qed.

(** The store step of the update, and what follows it. *)
Lemma ensures_update_one {A : Type} (id oid : string) (upd : pydoc)
    (existing : doc) (g : Z → M A) :
  Bson.ObjectId id = Some oid →
  (∀ n, frame (g n)) →
  ensures
    (λ old, Mongo.find_one (by_id (VOid oid)) old = Some existing)
    (updated id (Mongo.encode_doc upd))
    (announcements_update_one (by_id (VOid oid)) upd ≫= g).
Proof.
  intros Hoid Hg w Hfind. rewrite run_bind. unfold announcements_update_one.
  destruct (update_one_found _ upd _ _ Hfind) as (pre & post & Hold & ->).
  apply find_one_id_Some in Hfind as [_ Hid]; [|done].
  right. exists oid, existing, pre, post. split_and!; [done..|].
  set (n := if bool_decide _ then _ else _).
  specialize (Hg n (set_announcements
                      (pre ++ (Mongo.encode_doc upd ∪ existing) :: post) w)).
  destruct (g n _) as [[a|s d|e] w']; cbn [snd] in *; by rewrite Hg.
Qed.

Ltac failed :=
  intros; left; split; [reflexivity | intros ? ?; discriminate].

Lemma update_announcement_updated (id : string)
    (patch : AnnouncementUpdate.t) (username : string) :
  ensures (λ _, True) (updated id (Mongo.encode_doc (build_update_doc patch)))
    (update_announcement id patch username).
Proof.
  unfold update_announcement.
  apply ensures_bind; [frames | failed | failed | intros _].
  destruct (Bson.ObjectId id) as [oid|] eqn:Hoid; [|failed].
  intros w _. rewrite run_bind. unfold announcements_find_one.
  cbv beta iota.
  destruct (Mongo.find_one _ (announcements_collection w))
    as [existing|] eqn:Hfind; [|failed].
  destruct (negb (Py.dict_truthy existing)); [failed|].
  revert w Hfind.
  apply (ensures_bind
           (λ old, Mongo.find_one (by_id (VOid oid)) old = Some existing)
           (updated id (Mongo.encode_doc (build_update_doc patch))));
    [frames | failed | failed | intros final_expiration].
  cbv beta.
  apply ensures_bind; [frames | failed | failed | intros _].
  apply ensures_bind; [frames | failed | failed | intros _].
  apply ensures_bind; [frames | failed | failed | intros _].
  apply (ensures_update_one id oid); [done|]. intros n. frames.
Qed.

Lemma Forall2_same {A : Type} (R : A → A → Prop) (l : list A) :
  (∀ x, R x x) → Forall2 R l l.
Proof. intros HR. induction l; by constructor. Qed.

Lemma lookup_set_fields (patch : AnnouncementUpdate.t) (existing : doc)
    (k : string) :
  (Mongo.encode_doc (build_update_doc patch) ∪ existing) !! k
  = match patch_field patch k with
    | Some v => Some v
    | None => existing !! k
    end.
Proof.
  rewrite <- lookup_build_update_doc.
  destruct (Mongo.encode_doc (build_update_doc patch) !! k) as [v|] eqn:Hk.
  - by apply lookup_union_Some_l.
  - by apply lookup_union_r.
Qed.

(** C7: whatever an Update ends in, every stored announcement keeps each
    field the patch does not hold, and keeps its id, created_by and
    created_at; when the Update succeeds, exactly one announcement, the one
    with the requested identifier, is rewritten, and each of its fields is
    the patch's value where the patch holds one and the prior value
    otherwise. *)
Theorem update_writes_only_patch_fields (id : string)
    (patch : AnnouncementUpdate.t) (username : string) (w : World) :
  let old := announcements_collection w in
  let new :=
    announcements_collection (snd (update_announcement id patch username w))
  in
  Forall2
    (λ d d' : doc,
       (∀ k, patch_field patch k = None → d' !! k = d !! k)
       ∧ d' !! "_id" = d !! "_id"
       ∧ d' !! "created_by" = d !! "created_by"
       ∧ d' !! "created_at" = d !! "created_at")
    old new
  ∧ (∀ r, fst (update_announcement id patch username w) = Return r →
     ∃ oid existing rewritten pre post,
       Bson.ObjectId id = Some oid
       ∧ existing !! "_id" = Some (VOid oid)
       ∧ old = pre ++ existing :: post
       ∧ new = pre ++ rewritten :: post
       ∧ ∀ k, rewritten !! k
              = match patch_field patch k with
                | Some v => Some v
                | None => existing !! k
                end).
Proof.
  intros old new. subst old new.
  destruct (update_announcement_updated id patch username w I)
    as [[-> Hfail] | (oid & existing & pre & post & Hoid & Hid & Hold & ->)].
  - split; [by apply Forall2_same|]. intros r Hr. by destruct (Hfail r).
  - rewrite Hold. split.
    + apply Forall2_app; [by apply Forall2_same|].
      constructor; [|by apply Forall2_same].
      rewrite !lookup_set_fields. split_and!; [|done..].
      intros k Hk. by rewrite lookup_set_fields, Hk.
    + intros r _.
      exists oid, existing,
        (Mongo.encode_doc (build_update_doc patch) ∪ existing), pre, post.
      split_and!; [done..|]. apply lookup_set_fields.
Qed.

Lemma update_writes_only_patch_fields_witness :
  ∃ oid existing rewritten pre post,
    Bson.ObjectId "aaaaaaaaaaaaaaaaaaaaaaaa" = Some oid
    ∧ existing !! "_id" = Some (VOid oid)
    ∧ announcements_collection sample_world = pre ++ existing :: post
    ∧ announcements_collection
        (snd (update_announcement "aaaaaaaaaaaaaaaaaaaaaaaa"
                (sample_patch (Some "Assembly") None None None (Some false))
                "mchen" sample_world))
      = pre ++ rewritten :: post
    ∧ ∀ k, rewritten !! k
           = match patch_field
                     (sample_patch (Some "Assembly") None None None
                        (Some false)) k with
             | Some v => Some v
             | None => existing !! k
             end.
Proof.
  apply (update_writes_only_patch_fields "aaaaaaaaaaaaaaaaaaaaaaaa"
           (sample_patch (Some "Assembly") None None None (Some false))
           "mchen" sample_world)
    with (r := <["message" := "Announcement updated successfully"]> ∅).
  vm_compute; reflexivity.
Defined.

(** ** The handlers keep the store well-formed *)

Lemma kept_by_set_fields (check : option value → bool) (k : string)
    (patch : AnnouncementUpdate.t) (existing : doc) :
  check (existing !! k) = true →
  (∀ v, patch_field patch k = Some v → check (Some v) = true) →
  check ((Mongo.encode_doc (build_update_doc patch) ∪ existing) !! k) = true.
Proof.
  intros He Hp. rewrite lookup_set_fields.
  destruct (patch_field patch k) as [v|]; [by apply Hp | done].
Qed.

Ltac patch_value :=
  unfold patch_field; intros v;
  repeat (case_bool_decide; [try discriminate|]); try done;
  match goal with
  | |- _ <$> ?o = Some v → _ =>
      destruct o as [x|]; intros [= <-]; first [done | by destruct x]
  end.

Lemma well_formed_set_fields (patch : AnnouncementUpdate.t)
    (existing : doc) :
  well_formed existing = true →
  well_formed (Mongo.encode_doc (build_update_doc patch) ∪ existing) = true.
Proof.
  unfold well_formed. rewrite !andb_true_iff.
  intros [[[[[[[H1 H2] H3] H4] H5] H6] H7] H8].
  split_and!; (apply kept_by_set_fields; [done | patch_value]).
Qed.

Lemma well_formed_delete_one (q : Mongo.query) (coll : list doc) :
  Forall (λ d, well_formed d = true) coll →
  Forall (λ d, well_formed d = true) (fst (Mongo.delete_one q coll)).
Proof.
  induction 1 as [|d ds Hd Hds IH]; cbn [Mongo.delete_one]; [done|].
  destruct (Mongo.satisfies q d); [done|].
  destruct (Mongo.delete_one q ds) as [ds' n]. by constructor.
Qed.

Lemma well_formed_created (a : AnnouncementCreate.t)
    (username oid : string) (created_at : Z) :
  well_formed (stored_announcement oid a username created_at) = true.
Proof.
  unfold well_formed, stored_announcement.
  by destruct (AnnouncementCreate.start_date a) as [[]|],
    (AnnouncementCreate.expiration_date a).
Qed.

(** Whatever a Create ends in, the store is as it was or has the new
    announcement appended. *)
Lemma create_announcement_store (a : AnnouncementCreate.t)
    (username : string) (w : World) :
  let new :=
    announcements_collection (snd (create_announcement a username w)) in
  new = announcements_collection w
  ∨ new = announcements_collection w
          ++ [stored_announcement (fresh_oid w (announcements_collection w))
                a username (clock w (S (ticks w)))].
Proof.
  cbv zeta. destruct (decide (is_teacher w username)) as [Ht|Ht].
  - rewrite create_announcement_run by done. unfold created.
    destruct (AnnouncementCreate.expiration_date a) as [e|]; [|by left].
    destruct (e <=? _)%Z; [by left|].
    destruct (AnnouncementCreate.start_date a) as [[s|]|];
      [|by left|by right].
    destruct (e <=? s)%Z; [by left | by right].
  - left. unfold create_announcement.
    by rewrite run_bind, verify_teacher_unknown.
Qed.

(** X11: each of Create, Update and Delete, whatever it ends in, leaves a
    store of well-formed announcements well-formed: Create appends a
    document of the right shape, Update writes fields of the right kind
    only, Delete only removes. *)
Lemma handlers_keep_well_formed (w : World) (username id : string)
    (a : AnnouncementCreate.t) (patch : AnnouncementUpdate.t) :
  Forall (λ d, well_formed d = true) (announcements_collection w) →
  Forall (λ d, well_formed d = true)
    (announcements_collection (snd (create_announcement a username w)))
  ∧ Forall (λ d, well_formed d = true)
      (announcements_collection
         (snd (update_announcement id patch username w)))
  ∧ Forall (λ d, well_formed d = true)
      (announcements_collection (snd (delete_announcement id username w))).
Proof.
  intros Hwf. split_and!.
  - destruct (create_announcement_store a username w) as [-> | ->];
      [done|].
    apply Forall_app. split; [done|]. constructor; [|done].
    apply well_formed_created.
  - destruct (update_announcement_updated id patch username w I)
      as [[-> _] | (oid & existing & pre & post & _ & _ & Hold & ->)];
      [done|].
    rewrite Hold in Hwf. apply Forall_app in Hwf as [Hpre Hrest].
    inversion Hrest as [|? ? Hex Hpost]; subst.
    apply Forall_app. split; [done|]. constructor; [|done].
    by apply well_formed_set_fields.
  - unfold delete_announcement.
    destruct (decide (is_teacher w username)) as [Ht|Ht].
    + rewrite run_bind, verify_teacher_known by done.
      destruct (Bson.ObjectId id) as [oid|]; [|done]. run.
      pose proof (well_formed_delete_one
                    [Mongo.Field "_id" (Mongo.Eq (VOid oid))] _ Hwf) as Hd.
      destruct (Mongo.delete_one _ _) as [coll n].
      by destruct (n =? 0)%Z.
    + by rewrite run_bind, verify_teacher_unknown.
Qed.

(** * Further properties of the handlers *)

(** ** Rendering a document for the listing *)

Lemma convert_field_spec (isoformat : ascii → Z → string) (field : string)
    (d : doc) :
  convert_field isoformat field d
  = if convertible (d !! field) then
      Return match d !! field with
             | Some (VDate t) => <[field := VStr (isoformat "T"%char t)]> d
             | _ => d
             end
    else Uncaught "AttributeError".
Proof.
  unfold convert_field, convertible.
  destruct (d !! field) as [[|b|s| |]|]; cbn [Py.truthy negb]; try done.
  - by destruct b.
  - by destruct (String.eqb s EmptyString).
Qed.

Lemma convert_field_lookup (isoformat : ascii → Z → string)
    (field : string) (d d' : doc) :
  convert_field isoformat field d = Return d' →
  d' !! field = iso_field isoformat (d !! field)
  ∧ ∀ k, k ≠ field → d' !! k = d !! k.
Proof.
  rewrite convert_field_spec. destruct (convertible (d !! field)); [|done].
  intros [= <-]. unfold iso_field.
  destruct (d !! field) as [[]|] eqn:Hf; try done.
  split; [apply lookup_insert_eq|]. intros k Hk. by apply lookup_insert_ne.
Qed.

Lemma forallb_convertible_ext (fields : list string) (d d' : doc) :
  (∀ k, In k fields → d' !! k = d !! k) →
  forallb (λ field, convertible (d' !! field)) fields
  = forallb (λ field, convertible (d !! field)) fields.
Proof.
  intros H. induction fields as [|f fs IH]; [done|]. cbn [forallb].
  rewrite H by (by left). rewrite IH; [done|].
  intros k Hk. apply H. by right.
Qed.

(** The inner loop over distinct fields: it stops with [AttributeError] at
    the first field that cannot be converted, and else converts each of
    them and nothing else. *)
Lemma convert_fields_spec (isoformat : ascii → Z → string)
    (fields : list string) (d : doc) :
  NoDup fields →
  if forallb (λ field, convertible (d !! field)) fields then
    ∃ d', convert_fields isoformat fields d = Return d'
          ∧ (∀ k, In k fields → d' !! k = iso_field isoformat (d !! k))
          ∧ (∀ k, ¬ In k fields → d' !! k = d !! k)
  else convert_fields isoformat fields d = Uncaught "AttributeError".
Proof.
  intros Hnd. revert d.
  induction Hnd as [|f fs Hf Hnd IH]; intros d; cbn [forallb convert_fields].
  - by exists d.
  - rewrite convert_field_spec.
    destruct (convertible (d !! f)) eqn:Hc; cbn [andb]; [|done].
    set (d1 := match d !! f with Some (VDate _) => _ | _ => d end).
    assert (convert_field isoformat f d = Return d1) as H1
      by (by rewrite convert_field_spec, Hc).
    apply convert_field_lookup in H1 as [Hhere Hother].
    specialize (IH d1).
    rewrite (forallb_convertible_ext fs d d1) in IH.
    2:{ intros k Hk. apply Hother. intros ->. by apply Hf, list_elem_of_In. }
    destruct (forallb _ fs); [|done].
    destruct IH as (d' & -> & Hin & Hout). exists d'. split_and!; [done| |].
    + intros k [<-|Hk].
      * rewrite Hout, Hhere; [done|]. intros ?. by apply Hf, list_elem_of_In.
      * rewrite Hin, Hother; [done| |done].
        intros ->. by apply Hf, list_elem_of_In.
    + intros k Hk. rewrite Hout, Hother; [done| |].
      * intros ->. apply Hk. by left.
      * intros ?. apply Hk. by right.
Qed.

Lemma date_fields_distinct : NoDup date_fields.
Proof. decide_closed. Qed.

(** The loop body of the listing, case by case. *)
Lemma serialize_spec (isoformat : ascii → Z → string) (d : doc) :
  match d !! "_id" with
  | None => serialize isoformat d = Uncaught "KeyError"
  | Some oid =>
      if forallb (λ field, convertible (d !! field)) date_fields then
        ∃ r, serialize isoformat d = Return r
             ∧ r !! "id" = Some (VStr (str isoformat oid))
             ∧ r !! "_id" = None
             ∧ (∀ k, In k date_fields →
                  r !! k = iso_field isoformat (d !! k))
             ∧ (∀ k, ¬ In k date_fields → k ≠ "id" → k ≠ "_id" →
                  r !! k = d !! k)
      else serialize isoformat d = Uncaught "AttributeError"
  end.
Proof.
  unfold serialize. destruct (d !! "_id") as [oid|] eqn:Hid; [|done].
  set (d0 := <["id" := _]> _).
  assert (∀ k, k ≠ "id" → k ≠ "_id" → d0 !! k = d !! k) as H0.
  { intros k ? ?. subst d0. by rewrite lookup_insert_ne, lookup_delete_ne. }
  assert (∀ k, In k date_fields → k ≠ "id" ∧ k ≠ "_id") as Hdf.
  { intros k Hk. cbn in Hk. by intuition subst. }
  pose proof (convert_fields_spec isoformat date_fields d0
                date_fields_distinct) as Hspec.
  rewrite (forallb_convertible_ext date_fields d d0) in Hspec.
  2:{ intros k [? ?]%Hdf. by apply H0. }
  fold date_fields.
  destruct (forallb _ date_fields); [|done].
  destruct Hspec as (r & -> & Hin & Hout). exists r. split_and!; [done|..].
  - rewrite Hout by (by intros [? ?]%Hdf). subst d0. apply lookup_insert_eq.
  - rewrite Hout by (by intros [? ?]%Hdf). subst d0.
    by rewrite lookup_insert_ne, lookup_delete_eq.
  - intros k Hk. rewrite Hin by done. destruct (Hdf k Hk). by rewrite H0.
  - intros k Hk ? ?. by rewrite Hout, H0.
Qed.

(** X1: what the loop body of the listing makes of a stored document.
    Without [_id] it raises [KeyError]; when one of start_date,
    expiration_date and created_at holds a true value that is not a
    datetime it raises [AttributeError]; otherwise it returns the document
    with [_id] replaced by its text under [id], each datetime among the
    three fields replaced by its ISO text (a null or missing one left as it
    is), and every other field untouched. *)
Theorem serialize_outcome (isoformat : ascii → Z → string) (d : doc) :
  (d !! "_id" = None → serialize isoformat d = Uncaught "KeyError")
  ∧ (is_Some (d !! "_id") →
     forallb (λ field, convertible (d !! field)) date_fields = false →
     serialize isoformat d = Uncaught "AttributeError")
  ∧ (∀ oid, d !! "_id" = Some oid →
     forallb (λ field, convertible (d !! field)) date_fields = true →
     ∃ r, serialize isoformat d = Return r
          ∧ r !! "id" = Some (VStr (str isoformat oid))
          ∧ r !! "_id" = None
          ∧ (∀ k, In k date_fields → r !! k = iso_field isoformat (d !! k))
          ∧ (∀ k, ¬ In k date_fields → k ≠ "id" → k ≠ "_id" →
               r !! k = d !! k)).
Proof.
  pose proof (serialize_spec isoformat d) as Hspec. split_and!.
  - intros Hid. by rewrite Hid in Hspec.
  - intros [oid Hid] Hbad. by rewrite Hid, Hbad in Hspec.
  - intros oid Hid Hok. by rewrite Hid, Hok in Hspec.
Qed.

Lemma serialize_cannot (isoformat : ascii → Z → string) (d : doc) :
  d !! "_id" = None
  ∨ forallb (λ field, convertible (d !! field)) date_fields = false →
  ∃ e, serialize isoformat d = Uncaught e.
Proof.
  intros Hbad. unfold serialize.
  destruct (d !! "_id") as [oid|] eqn:Hid; [|by eexists].
  destruct Hbad as [?|Hbad]; [done|].
  set (d0 := <["id" := _]> _).
  pose proof (convert_fields_spec isoformat date_fields d0
                date_fields_distinct) as Hspec.
  rewrite (forallb_convertible_ext date_fields d d0), Hbad in Hspec.
  - by eexists.
  - intros k Hk. subst d0. cbn in Hk.
    rewrite lookup_insert_ne, lookup_delete_ne; by intuition subst.
Qed.

Lemma serialize_not_refused (isoformat : ascii → Z → string) (d : doc)
    (status_code : Z) (detail : string) :
  serialize isoformat d ≠ HTTPException status_code detail.
Proof.
  unfold serialize. destruct (d !! "_id") as [oid|]; [|done].
  set (d0 := <["id" := _]> _).
  pose proof (convert_fields_spec isoformat date_fields d0
                date_fields_distinct) as Hspec.
  fold date_fields.
  destruct (forallb _ date_fields); [|by rewrite Hspec].
  by destruct Hspec as (r & -> & _).
Qed.

Lemma serialize_each_cannot (isoformat : ascii → Z → string)
    (l : list doc) (d : doc) :
  In d l →
  (∃ e, serialize isoformat d = Uncaught e) →
  ∃ e, serialize_each isoformat l = Uncaught e.
Proof.
  intros Hin [e He]. induction l as [|x xs IH]; [done|].
  cbn [serialize_each]. destruct Hin as [->|Hin].
  - rewrite He. by eexists.
  - destruct (serialize isoformat x) as [r|s x'|e'] eqn:Hx.
    + destruct (IH Hin) as [e' ->]. by eexists.
    + by apply serialize_not_refused in Hx.
    + by eexists.
Qed.

(** X2: one stored document the loop cannot render, for want of [_id] or
    for a true non-datetime in a date field, makes the whole management
    listing end in an uncaught exception instead of a list; the store is
    left as it was. *)
Theorem listing_fails_on_unrenderable (isoformat : ascii → Z → string)
    (w : World) (d : doc) :
  In d (announcements_collection w) →
  d !! "_id" = None
  ∨ forallb (λ field, convertible (d !! field)) date_fields = false →
  ∃ e, get_announcements isoformat false None w = (Uncaught e, w).
Proof.
  intros Hin Hbad. rewrite get_announcements_all.
  destruct (serialize_each_cannot isoformat
              (Mongo.sort "created_at" (-1) (announcements_collection w)) d)
    as [e ->].
  - eapply Permutation_in; [|done]. symmetry. apply sort_permutation.
  - by apply serialize_cannot.
  - by eexists.
Qed.

Lemma listing_fails_on_unrenderable_witness :
  ∃ e, get_announcements sample_isoformat false None legacy_world
       = (Uncaught e, legacy_world).
Proof.
  apply (listing_fails_on_unrenderable sample_isoformat legacy_world
           legacy_announcement).
  - by left.
  - right. vm_compute; reflexivity.
Defined.

(** ** Deleting a stored announcement *)

Lemma find_one_stored (w : World) (oid : string) :
  stored w oid →
  ∃ d, Mongo.find_one (by_id (VOid oid)) (announcements_collection w)
       = Some d.
Proof.
  intros (d & Hin & Hd)%List.Exists_exists. unfold by_id.
  destruct (Mongo.find_one _ _) as [x|] eqn:Hf; [by eexists|].
  exfalso. revert Hf. rewrite find_one_id_None by done.
  intros Hall. by apply (Hall d).
Qed.

Lemma delete_one_found (q : Mongo.query) (coll : list doc) (d : doc) :
  Mongo.find_one q coll = Some d →
  ∃ pre post,
    coll = pre ++ d :: post
    ∧ (∀ x, In x pre → Mongo.satisfies q x = false)
    ∧ Mongo.delete_one q coll = (pre ++ post, 1%Z).
Proof.
  unfold Mongo.find_one. induction coll as [|x xs IH]; [done|].
  cbn [List.find Mongo.delete_one].
  destruct (Mongo.satisfies q x) eqn:Hx.
  - intros [= ->]. by exists [], xs.
  - intros (pre & post & -> & Hpre & Hd)%IH. exists (x :: pre), post.
    rewrite Hd. split_and!; [done| |done].
    intros y [<-|Hy]; [done | by apply Hpre].
Qed.

(** X3: a Delete by a known teacher of a stored announcement succeeds and
    removes exactly one document, the first one with the requested
    identifier; the documents before and after it stay, in their order. *)
Theorem delete_removes_one (w : World) (username id oid : string) :
  is_teacher w username →
  Bson.ObjectId id = Some oid →
  stored w oid →
  ∃ pre d post,
    announcements_collection w = pre ++ d :: post
    ∧ d !! "_id" = Some (VOid oid)
    ∧ (∀ x, In x pre → x !! "_id" ≠ Some (VOid oid))
    ∧ delete_announcement id username w
      = (Return (<["message" := "Announcement deleted successfully"]> ∅),
         set_announcements (pre ++ post) w).
Proof.
  intros Ht Hoid [d Hfind]%find_one_stored.
  destruct (delete_one_found _ _ _ Hfind) as (pre & post & Hold & Hpre & Hd).
  exists pre, d, post. unfold by_id in *.
  apply find_one_id_Some in Hfind as [_ Hid]; [|done].
  split_and!; [done..| |].
  - intros x Hx Hxid. specialize (Hpre x Hx).
    rewrite satisfies_id in Hpre by done.
    by apply bool_decide_eq_false in Hpre.
  - unfold delete_announcement.
    rewrite run_bind, verify_teacher_known, Hoid by done. run.
    by rewrite Hd.
Qed.

Lemma delete_removes_one_witness :
  ∃ pre d post,
    announcements_collection sample_world = pre ++ d :: post
    ∧ d !! "_id" = Some (VOid "bbbbbbbbbbbbbbbbbbbbbbbb")
    ∧ (∀ x, In x pre → x !! "_id" ≠ Some (VOid "bbbbbbbbbbbbbbbbbbbbbbbb"))
    ∧ delete_announcement "BBBBBBBBBBBBBBBBBBBBBBBB" "mchen" sample_world
      = (Return (<["message" := "Announcement deleted successfully"]> ∅),
         set_announcements (pre ++ post) sample_world).
Proof.
  apply (delete_removes_one sample_world "mchen" "BBBBBBBBBBBBBBBBBBBBBBBB"
           "bbbbbbbbbbbbbbbbbbbbbbbb").
  - decide_closed.
  - vm_compute; reflexivity.
  - decide_closed.
Defined.

Lemma unique_ids_split (pre post : list doc) (d : doc) (v : value) :
  unique_ids (pre ++ d :: post) →
  d !! "_id" = Some v →
  ∀ x, In x (pre ++ post) → x !! "_id" ≠ Some v.
Proof.
  unfold unique_ids. rewrite map_app. cbn [map].
  intros (_ & Hdisj & [Hnotin _]%NoDup_cons)%NoDup_app Hd x Hx Hxv.
  apply in_app_or in Hx as [Hx|Hx].
  - apply (Hdisj (x !! "_id")).
    + apply list_elem_of_In. by apply (in_map (λ d : doc, d !! "_id")).
    + rewrite Hxv, Hd. by left.
  - apply Hnotin. rewrite Hd, <- Hxv. apply list_elem_of_In.
    by apply (in_map (λ d : doc, d !! "_id")).
Qed.

(** X4: where identifiers are unique, a successful Delete leaves no
    announcement with that identifier, so the same Delete sent again fails
    with NotFound (404) and changes nothing. *)
Theorem delete_twice (w : World) (username id oid : string) :
  is_teacher w username →
  Bson.ObjectId id = Some oid →
  stored w oid →
  unique_ids (announcements_collection w) →
  let w' := snd (delete_announcement id username w) in
  ¬ stored w' oid
  ∧ delete_announcement id username w'
    = (HTTPException 404 "Announcement not found", w').
Proof.
  intros Ht Hoid [d Hfind]%find_one_stored Huniq w'.
  destruct (delete_one_found _ _ _ Hfind) as (pre & post & Hold & _ & Hd).
  unfold by_id in *. apply find_one_id_Some in Hfind as [_ Hid]; [|done].
  assert (w' = set_announcements (pre ++ post) w) as ->.
  { subst w'. unfold delete_announcement.
    rewrite run_bind, verify_teacher_known, Hoid by done. run.
    by rewrite Hd. }
  rewrite Hold in Huniq.
  pose proof (unique_ids_split pre post d _ Huniq Hid) as Hgone.
  assert (¬ stored (set_announcements (pre ++ post) w) oid) as Hno.
  { intros (x & Hx & Hxid)%List.Exists_exists. by apply (Hgone x). }
  split; [done|]. unfold delete_announcement.
  rewrite run_bind, verify_teacher_known, Hoid by done. run.
  cbn [announcements_collection set_announcements].
  rewrite delete_one_absent by done.
  by destruct w.
Qed.

Lemma delete_twice_witness :
  let w' :=
    snd (delete_announcement "cccccccccccccccccccccccc" "mchen"
           sample_world) in
  ¬ stored w' "cccccccccccccccccccccccc"
  ∧ delete_announcement "cccccccccccccccccccccccc" "mchen" w'
    = (HTTPException 404 "Announcement not found", w').
Proof.
  apply (delete_twice sample_world "mchen" "cccccccccccccccccccccccc"
           "cccccccccccccccccccccccc").
  - decide_closed.
  - vm_compute; reflexivity.
  - decide_closed.
  - decide_closed.
Defined.

(** ** Updating: the identifier, success, repetition *)

(** X5: for an Update by a known teacher, an identifier that [ObjectId]
    refuses (it has not 24 characters, or they are not hexadecimal byte
    pairs, white space between the pairs apart) fails with InvalidInput
    (400), and an identifier that [ObjectId] takes and no stored
    announcement has fails with NotFound (404), whatever the patch holds,
    even an invalid or an empty one; the world is unchanged. *)
Theorem update_rejects_unknown_ids (w : World) (username id : string)
    (patch : AnnouncementUpdate.t) :
  is_teacher w username →
  (Bson.ObjectId id = None →
   update_announcement id patch username w
   = (HTTPException 400 "Invalid announcement ID", w))
  ∧ (∀ oid, Bson.ObjectId id = Some oid → ¬ stored w oid →
     update_announcement id patch username w
     = (HTTPException 404 "Announcement not found", w)).
Proof.
  intros Ht. unfold update_announcement.
  rewrite run_bind, verify_teacher_known by done. split.
  - by intros ->.
  - intros oid -> Hno. run.
    assert (Mongo.find_one [Mongo.Field "_id" (Mongo.Eq (VOid oid))]
              (announcements_collection w) = None) as ->; [|done].
    apply find_one_id_None; [done|]. intros d Hin Hd. apply Hno.
    apply List.Exists_exists. by exists d.
Qed.

Lemma update_rejects_unknown_ids_witness :
  update_announcement "12345" (sample_patch None None None None None)
    "mchen" sample_world
  = (HTTPException 400 "Invalid announcement ID", sample_world)
  ∧ update_announcement "eeeeeeeeeeeeeeeeeeeeeeee"
      (sample_patch None None None (Some (Naive 1)) None) "mchen" sample_world
    = (HTTPException 404 "Announcement not found", sample_world).
Proof.
  split.
  - apply (update_rejects_unknown_ids sample_world "mchen" "12345");
      [decide_closed | reflexivity].
  - apply (update_rejects_unknown_ids sample_world "mchen"
             "eeeeeeeeeeeeeeeeeeeeeeee")
      with (oid := "eeeeeeeeeeeeeeeeeeeeeeee");
      [decide_closed | reflexivity | decide_closed].
Defined.

Lemma set_fields_same (upd existing : doc) :
  upd ∪ existing = existing ↔
  ∀ k v, upd !! k = Some v → existing !! k = Some v.
Proof.
  split.
  - intros Heq k v Hk. rewrite <- Heq. by apply lookup_union_Some_l.
  - intros Hall. apply map_eq. intros k.
    destruct (upd !! k) as [v|] eqn:Hk.
    + rewrite (lookup_union_Some_l _ _ _ _ Hk). symmetry. by apply Hall.
    + by apply lookup_union_r.
Qed.

(** An Update that returns has passed the date rules on dates that carry
    no UTC offset. *)
Lemma update_returned_accepted (id oid : string)
    (patch : AnnouncementUpdate.t) (username : string) (w : World)
    (existing : doc) (e : datetime) (r : gmap string string) :
  is_teacher w username →
  Bson.ObjectId id = Some oid →
  Mongo.find_one (by_id (VOid oid)) (announcements_collection w)
  = Some existing →
  well_formed existing = true →
  effective_expiration patch existing = Some e →
  fst (update_announcement id patch username w) = Return r →
  dates_accepted (clock w (ticks w)) (effective_start patch existing) e.
Proof.
  intros Ht Hoid Hfind Hwf He.
  rewrite (update_announcement_steps id oid patch username w existing)
    by done.
  rewrite He. destruct e as [e|]; [|done].
  destruct (Z.leb_spec e (clock w (ticks w))); [done|].
  destruct (effective_start patch existing) as [[s|]|]; [|done|].
  - destruct (Z.leb_spec e s); [done|]. intros _. by exists e.
  - intros _. by exists e.
Qed.

(** X6: an Update by a known teacher of a stored, well-formed announcement
    succeeds exactly when the effective dates carry no UTC offset and pass
    the date rules, and the patch holds a field whose value, as the store
    keeps it (a date to the millisecond), differs from the stored one; a
    patch that only repeats stored values is never a success. *)
Theorem update_succeeds_iff (id oid : string)
    (patch : AnnouncementUpdate.t) (username : string) (w : World)
    (existing : doc) (e : datetime) :
  is_teacher w username →
  Bson.ObjectId id = Some oid →
  Mongo.find_one (by_id (VOid oid)) (announcements_collection w)
  = Some existing →
  well_formed existing = true →
  effective_expiration patch existing = Some e →
  fst (update_announcement id patch username w)
  = Return (<["message" := "Announcement updated successfully"]> ∅)
  ↔ dates_accepted (clock w (ticks w)) (effective_start patch existing) e
    ∧ ∃ k v, patch_field patch k = Some v ∧ existing !! k ≠ Some v.
Proof.
  intros Ht Hoid Hfind Hwf He.
  assert ((∃ k v, patch_field patch k = Some v ∧ existing !! k ≠ Some v)
          ↔ Mongo.encode_doc (build_update_doc patch) ∪ existing ≠ existing)
    as ->.
  { rewrite set_fields_same. split.
    - intros (k & v & Hk & Hne) Hall. apply Hne, Hall.
      by rewrite lookup_build_update_doc.
    - intros Hnot.
      change (¬ map_Forall (λ k v, existing !! k = Some v)
                  (Mongo.encode_doc (build_update_doc patch))) in Hnot.
      apply map_not_Forall in Hnot as (k & v & Hk & Hne); [|apply _].
      exists k, v. by rewrite <- lookup_build_update_doc. }
  assert (dates_accepted (clock w (ticks w))
            (effective_start patch existing) e →
          fst (update_announcement id patch username w)
          = Return (<["message" := "Announcement updated successfully"]> ∅)
          ↔ Mongo.encode_doc (build_update_doc patch) ∪ existing ≠ existing)
    as Hwrite.
  { intros Hacc.
    rewrite (update_accepted id oid patch username w existing e) by done.
    unfold apply_patch.
    destruct (update_one_found _ (build_update_doc patch) _ _ Hfind)
      as (pre & post & _ & ->).
    case_bool_decide as Hempty.
    { split; [done|]. intros Hch. exfalso. apply Hch.
      rewrite Hempty. unfold Mongo.encode_doc. rewrite fmap_empty.
      apply (left_id_L ∅ (∪)). }
    cbn [fst]. case_bool_decide as Hsame; cbn [Z.eqb]; [|done].
    split; [done|]. by intros ?. }
  split.
  - intros Hsucc.
    pose proof (update_returned_accepted id oid patch username w existing e
                  _ Ht Hoid Hfind Hwf He Hsucc) as Hacc.
    split; [done|]. by apply Hwrite.
  - intros [Hacc Hch]. by apply Hwrite.
Qed.

Lemma update_succeeds_iff_witness :
  fst (update_announcement "aaaaaaaaaaaaaaaaaaaaaaaa"
         (sample_patch (Some "Assembly") None None None None) "mchen"
         sample_world)
  = Return (<["message" := "Announcement updated successfully"]> ∅).
Proof.
  apply (update_succeeds_iff "aaaaaaaaaaaaaaaaaaaaaaaa"
           "aaaaaaaaaaaaaaaaaaaaaaaa"
           (sample_patch (Some "Assembly") None None None None) "mchen"
           sample_world
           (sample_announcement "aaaaaaaaaaaaaaaaaaaaaaaa" "A" VNull 100
              true 5)
           (Naive 100)).
  - decide_closed.
  - vm_compute; reflexivity.
  - vm_compute; reflexivity.
  - vm_compute; reflexivity.
  - vm_compute; reflexivity.
  - split.
    + exists 100%Z. split_and!; [done | vm_compute; reflexivity | done].
    + exists "title", (VStr "Assembly"). split; [reflexivity|].
      vm_compute. discriminate.
Defined.

(** The document an update finds is the first that matches: putting
    another matching document in its place, the next update finds that
    one. *)
Lemma update_one_first (q : Mongo.query) (upd : pydoc) (coll : list doc)
    (d : doc) :
  Mongo.find_one q coll = Some d →
  ∃ pre post,
    coll = pre ++ d :: post
    ∧ Mongo.satisfies q d = true
    ∧ ∀ d', Mongo.satisfies q d' = true →
            Mongo.find_one q (pre ++ d' :: post) = Some d'
            ∧ Mongo.update_one q upd (pre ++ d' :: post)
              = (pre ++ (Mongo.encode_doc upd ∪ d') :: post,
                 if bool_decide (Mongo.encode_doc upd ∪ d' = d')
                 then 0%Z else 1%Z).
Proof.
  unfold Mongo.find_one. induction coll as [|x xs IH]; [done|].
  cbn [List.find]. destruct (Mongo.satisfies q x) eqn:Hx.
  - intros [= ->]. exists [], xs. split_and!; [done..|].
    intros d' Hd'. cbn. by rewrite Hd'.
  - intros (pre & post & -> & Hd & Hfirst)%IH. exists (x :: pre), post.
    split_and!; [done..|]. intros d' Hd'. cbn. rewrite Hx.
    destruct (Hfirst d' Hd') as [-> ->]. done.
Qed.

Lemma patch_field_dates (patch : AnnouncementUpdate.t) :
  patch_field patch "expiration_date"
  = stored_date <$> AnnouncementUpdate.expiration_date patch
  ∧ patch_field patch "start_date"
    = stored_date <$> AnnouncementUpdate.start_date patch
  ∧ patch_field patch "_id" = None.
Proof.
  unfold patch_field. split_and!; by repeat (case_bool_decide; [done|]).
Qed.

Lemma effective_dates_set_fields (patch : AnnouncementUpdate.t)
    (existing : doc) :
  effective_expiration patch
    (Mongo.encode_doc (build_update_doc patch) ∪ existing)
  = effective_expiration patch existing
  ∧ effective_start patch
      (Mongo.encode_doc (build_update_doc patch) ∪ existing)
    = effective_start patch existing.
Proof.
  destruct (patch_field_dates patch) as (He & Hs & _).
  unfold effective_expiration, effective_start, expiration_of, start_of.
  rewrite !lookup_set_fields, He, Hs.
  by destruct (AnnouncementUpdate.expiration_date patch),
    (AnnouncementUpdate.start_date patch).
Qed.

(** X7: the same Update sent again after it succeeded, while the dates
    still pass the date rules, fails with StorageError (500): the second
    time every field of the patch already has its value, and the store
    reports no modification. *)
Theorem update_repeated (id oid : string) (patch : AnnouncementUpdate.t)
    (username : string) (w : World) (existing : doc) (e : datetime) :
  is_teacher w username →
  Bson.ObjectId id = Some oid →
  Mongo.find_one (by_id (VOid oid)) (announcements_collection w)
  = Some existing →
  well_formed existing = true →
  effective_expiration patch existing = Some e →
  fst (update_announcement id patch username w)
  = Return (<["message" := "Announcement updated successfully"]> ∅) →
  dates_accepted (clock w (S (ticks w)))
    (effective_start patch existing) e →
  fst (update_announcement id patch username
         (snd (update_announcement id patch username w)))
  = HTTPException 500 "Failed to update announcement".
Proof.
  intros Ht Hoid Hfind Hwf He Hsucc Hlater.
  pose proof (update_returned_accepted id oid patch username w existing e
                _ Ht Hoid Hfind Hwf He Hsucc) as Hnow.
  destruct (update_one_first _ (build_update_doc patch) _ _ Hfind)
    as (pre & post & Hold & Hsat & Hfirst).
  destruct (Hfirst existing Hsat) as [_ Hupd1]. rewrite <- Hold in Hupd1.
  assert (Mongo.satisfies (by_id (VOid oid))
            (Mongo.encode_doc (build_update_doc patch) ∪ existing) = true)
    as Hsat'.
  { unfold by_id in *. rewrite satisfies_id in * by done.
    apply bool_decide_eq_true in Hsat. apply bool_decide_eq_true_2.
    rewrite lookup_set_fields.
    by destruct (patch_field_dates patch) as (_ & _ & ->). }
  destruct (Hfirst (Mongo.encode_doc (build_update_doc patch) ∪ existing)
              Hsat') as [Hfind2 Hupd2].
  rewrite (update_accepted id oid patch username w existing e)
    in Hsucc |- * by done.
  unfold apply_patch in Hsucc |- *. rewrite Hupd1 in Hsucc |- *.
  destruct (bool_decide (build_update_doc patch = ∅)) eqn:Hempty; [done|].
  cbn [fst snd] in *.
  destruct (effective_dates_set_fields patch existing) as [He2 Hs2].
  rewrite (update_accepted id oid patch username _
             (Mongo.encode_doc (build_update_doc patch) ∪ existing) e);
    try done.
  - unfold apply_patch.
    cbn [announcements_collection set_announcements clock ticks tick].
    rewrite Hempty, Hupd2.
    rewrite bool_decide_eq_true_2; [done|].
    by rewrite (assoc_L (∪)), (idemp_L (∪)).
  - by apply well_formed_set_fields.
  - by rewrite He2.
  - by rewrite Hs2.
Qed.

Lemma update_repeated_witness :
  fst (update_announcement "aaaaaaaaaaaaaaaaaaaaaaaa"
         (sample_patch (Some "Assembly") None None None None) "mchen"
         (snd (update_announcement "aaaaaaaaaaaaaaaaaaaaaaaa"
                 (sample_patch (Some "Assembly") None None None None)
                 "mchen" sample_world)))
  = HTTPException 500 "Failed to update announcement".
Proof.
  apply (update_repeated "aaaaaaaaaaaaaaaaaaaaaaaa"
           "aaaaaaaaaaaaaaaaaaaaaaaa"
           (sample_patch (Some "Assembly") None None None None) "mchen"
           sample_world
           (sample_announcement "aaaaaaaaaaaaaaaaaaaaaaaa" "A" VNull 100
              true 5)
           (Naive 100)).
  - decide_closed.
  - vm_compute; reflexivity.
  - vm_compute; reflexivity.
  - vm_compute; reflexivity.
  - vm_compute; reflexivity.
  - vm_compute; reflexivity.
  - exists 100%Z. split_and!; [done | vm_compute; reflexivity | done].
Defined.

(** X8: the stored expiration date is read with a subscript and the stored
    start date with [get]: an Update whose patch gives no expiration date,
    on a stored document that has none, ends in an uncaught [KeyError]
    before any date check, with the world unchanged, whereas a missing
    stored start date is read as absent. *)
Theorem update_missing_expiration (id oid : string)
    (patch : AnnouncementUpdate.t) (username : string) (w : World)
    (existing : doc) :
  is_teacher w username →
  Bson.ObjectId id = Some oid →
  Mongo.find_one (by_id (VOid oid)) (announcements_collection w)
  = Some existing →
  existing !! "expiration_date" = None →
  (AnnouncementUpdate.expiration_date patch = None →
   update_announcement id patch username w = (Uncaught "KeyError", w))
  ∧ (∀ t, AnnouncementUpdate.expiration_date patch = Some (Naive t) →
     AnnouncementUpdate.start_date patch = None →
     existing !! "start_date" = None →
     (t <= clock w (ticks w))%Z →
     update_announcement id patch username w
     = (HTTPException 400 "Expiration date must be in the future", tick w)).
Proof.
  intros Ht Hoid Hfind Hmissing. unfold by_id in *.
  pose proof (found_is_truthy (VOid oid) _ existing ltac:(done) Hfind)
    as Htruthy.
  unfold update_announcement.
  rewrite run_bind, verify_teacher_known, Hoid by done. run.
  rewrite Hfind, Htruthy, Hmissing. cbn [negb]. split.
  - by intros ->.
  - intros t -> -> Hs Hpast. rewrite Hs. run.
    cbn [of_datetime Py.is_true Py.truthy Py.le Py.le_plain reject_when].
    run.
    by rewrite (proj2 (Z.leb_le t _) Hpast).
Qed.

Lemma update_missing_expiration_witness :
  update_announcement "eeeeeeeeeeeeeeeeeeeeeeee"
    (sample_patch (Some "Title") None None None None) "mchen" bare_world
  = (Uncaught "KeyError", bare_world).
Proof.
  apply (update_missing_expiration "eeeeeeeeeeeeeeeeeeeeeeee"
           "eeeeeeeeeeeeeeeeeeeeeeee"
           (sample_patch (Some "Title") None None None None) "mchen"
           bare_world (<["_id" := VOid "eeeeeeeeeeeeeeeeeeeeeeee"]> ∅)).
  - decide_closed.
  - vm_compute; reflexivity.
  - vm_compute; reflexivity.
  - vm_compute; reflexivity.
  - reflexivity.
Defined.

(** ** Creating, then listing or deleting *)

Lemma Forall2_In_l {A B : Type} (R : A → B → Prop) (l : list A)
    (k : list B) (x : A) :
  Forall2 R l k → In x l → ∃ y, In y k ∧ R x y.
Proof.
  induction 1 as [|a b l k Hab Hlk IH]; [done|].
  intros [<-|Hx].
  - exists b. split; [by left | done].
  - destruct (IH Hx) as (y & Hy & Hxy). exists y. split; [by right | done].
Qed.

Lemma stored_date_reading (d : datetime) :
  stored_date d = VDate (kept_reading d).
Proof. by destruct d. Qed.

(** X9: after a Create by a known teacher whose dates carry no UTC offset
    and pass the date rules, on a well-formed store, the management listing
    asked by that teacher has one record more and holds a record with the
    identifier Create returned and the fields of the request: title,
    message and is_active as given, created_by the teacher, the dates as
    the ISO text of what the store kept of them, which is the date cut to
    the millisecond, and an absent start date as null. *)
Theorem create_then_list (isoformat : ascii → Z → string)
    (a : AnnouncementCreate.t) (username : string) (w : World) :
  Forall (λ d, well_formed d = true) (announcements_collection w) →
  is_teacher w username →
  dates_accepted (clock w (ticks w)) (AnnouncementCreate.start_date a)
    (AnnouncementCreate.expiration_date a) →
  let w' := snd (create_announcement a username w) in
  ∃ result r,
    get_announcements isoformat false (Some username) w'
    = (Return result, w')
    ∧ length result = S (length (announcements_collection w))
    ∧ In r result
    ∧ r !! "id"
      = Some (VStr (fresh_oid w (announcements_collection w)))
    ∧ r !! "title" = Some (VStr (AnnouncementCreate.title a))
    ∧ r !! "message" = Some (VStr (AnnouncementCreate.message a))
    ∧ r !! "is_active" = Some (VBool (AnnouncementCreate.is_active a))
    ∧ r !! "created_by" = Some (VStr username)
    ∧ r !! "start_date"
      = match AnnouncementCreate.start_date a with
        | Some start => Some (VStr (isoformat "T"%char (kept_reading start)))
        | None => Some VNull
        end
    ∧ r !! "expiration_date"
      = Some (VStr (isoformat "T"%char
                      (kept_reading (AnnouncementCreate.expiration_date a))))
    ∧ r !! "created_at"
      = Some (VStr (isoformat "T"%char
                      (Mongo.truncate (clock w (S (ticks w)))))).
Proof.
  intros Hwf Ht Hok w'. subst w'.
  rewrite create_accepted by done. unfold created.
  cbn [snd]. set (oid := fresh_oid w (announcements_collection w)).
  set (d := stored_announcement _ _ _ _).
  set (w' := set_announcements _ _).
  assert (Forall (λ d, well_formed d = true) (announcements_collection w'))
    as Hwf'.
  { subst w'. cbn [announcements_collection set_announcements].
    apply Forall_app. split; [done|]. constructor; [|done].
    apply well_formed_created. }
  rewrite get_announcements_all.
  rewrite (bool_decide_eq_true_2 (is_teacher w' username)) by done.
  rewrite andb_false_r.
  destruct (whole_listing isoformat w' Hwf')
    as (found & result & Hres & Hall & Hperm & _).
  rewrite Hres.
  assert (In d found) as Hd.
  { eapply Permutation_in; [symmetry; exact Hperm|].
    subst w'. cbn [announcements_collection set_announcements].
    apply in_or_app. right. by left. }
  destruct (Forall2_In_l _ _ _ _ Hall Hd) as (r & Hr & Hser).
  exists result, r. split; [done|]. split.
  { rewrite <- (Forall2_length _ _ _ Hall), (Permutation_length Hperm).
    subst w'. cbn [announcements_collection set_announcements].
    rewrite length_app. cbn. lia. }
  split; [done|].
  pose proof (serialize_spec isoformat d) as Hspec.
  assert (d !! "_id" = Some (VOid oid)) as Hid by done.
  rewrite Hid, Hser in Hspec.
  destruct (forallb _ date_fields); [|done].
  destruct Hspec as (r' & [= <-] & Hrid & _ & Hdates & Hrest).
  split; [done|].
  rewrite !Hrest by (cbn; intuition discriminate).
  rewrite !Hdates by (cbn; tauto).
  subst d. unfold stored_announcement.
  split_and!; try done.
  - rewrite !lookup_insert_ne, lookup_insert_eq by done.
    unfold stored_optional_date.
    destruct (AnnouncementCreate.start_date a) as [start|]; [|done].
    by rewrite stored_date_reading.
  - rewrite !lookup_insert_ne, lookup_insert_eq by done.
    by rewrite stored_date_reading.
Qed.

Lemma create_then_list_witness :
  let w' :=
    snd (create_announcement
           (AnnouncementCreate.make "Fair" "Science fair"
              (Some (Naive 55555)) (Naive 66666) None)
           "mchen" sample_world) in
  ∃ result r,
    get_announcements sample_isoformat false (Some "mchen") w'
    = (Return result, w')
    ∧ length result = 5
    ∧ In r result
    ∧ r !! "id" = Some (VStr "ffffffffffffffffffffffff")
    ∧ r !! "title" = Some (VStr "Fair")
    ∧ r !! "is_active" = Some (VBool true)
    ∧ r !! "created_by" = Some (VStr "mchen")
    ∧ r !! "expiration_date" = Some (VStr (sample_isoformat "T" 66000)).
Proof.
  intros w'.
  destruct (create_then_list sample_isoformat
              (AnnouncementCreate.make "Fair" "Science fair"
                 (Some (Naive 55555)) (Naive 66666) None)
              "mchen" sample_world)
    as (result & r & H1 & H2 & H3 & H4 & H5 & _ & H7 & H8 & _ & H10 & _).
  - decide_closed.
  - decide_closed.
  - exists 66666%Z. split_and!; [done | vm_compute; reflexivity..].
  - exists result, r. split_and!; assumption.
Defined.

Lemma delete_one_last (q : Mongo.query) (coll : list doc) (d : doc) :
  (∀ x, In x coll → Mongo.satisfies q x = false) →
  Mongo.satisfies q d = true →
  Mongo.delete_one q (coll ++ [d]) = (coll, 1%Z).
Proof.
  intros Hnone Hd. induction coll as [|x xs IH]; cbn [app Mongo.delete_one].
  - by rewrite Hd.
  - rewrite (Hnone x) by (by left). rewrite IH; [done|].
    intros y Hy. apply Hnone. by right.
Qed.

(** X10: a Create followed by a Delete of the identifier it returned puts
    the store back as it was, provided the identifier the store chose is a
    well-formed one in lower case that no stored announcement has. *)
Theorem create_then_delete (a : AnnouncementCreate.t) (username : string)
    (w : World) :
  is_teacher w username →
  dates_accepted (clock w (ticks w)) (AnnouncementCreate.start_date a)
    (AnnouncementCreate.expiration_date a) →
  let oid := fresh_oid w (announcements_collection w) in
  Bson.ObjectId oid = Some oid →
  ¬ stored w oid →
  let w' := snd (create_announcement a username w) in
  fst (delete_announcement oid username w')
  = Return (<["message" := "Announcement deleted successfully"]> ∅)
  ∧ announcements_collection (snd (delete_announcement oid username w'))
    = announcements_collection w.
Proof.
  intros Ht Hok oid Hoid Hfresh w'. subst w'.
  rewrite create_accepted by done. unfold created.
  cbn [snd]. fold oid. set (d := stored_announcement _ _ _ _).
  unfold delete_announcement.
  rewrite run_bind, verify_teacher_known, Hoid by done. run.
  cbn [announcements_collection set_announcements].
  rewrite delete_one_last; [done| |].
  - intros x Hx. rewrite satisfies_id by done.
    apply bool_decide_eq_false_2. intros Hxid. apply Hfresh.
    apply List.Exists_exists. by exists x.
  - rewrite satisfies_id by done. by apply bool_decide_eq_true_2.
Qed.

Lemma create_then_delete_witness :
  let w' :=
    snd (create_announcement
           (AnnouncementCreate.make "Fair" "Science fair" None (Naive 60) None)
           "mchen" sample_world) in
  fst (delete_announcement "ffffffffffffffffffffffff" "mchen" w')
  = Return (<["message" := "Announcement deleted successfully"]> ∅)
  ∧ announcements_collection
      (snd (delete_announcement "ffffffffffffffffffffffff" "mchen" w'))
    = announcements_collection sample_world.
Proof.
  apply (create_then_delete
           (AnnouncementCreate.make "Fair" "Science fair" None (Naive 60) None)
           "mchen" sample_world).
  - decide_closed.
  - exists 60%Z. split_and!; [done | vm_compute; reflexivity | done].
  - vm_compute; reflexivity.
  - decide_closed.
Defined.

Lemma handlers_keep_well_formed_witness :
  Forall (λ d, well_formed d = true)
    (announcements_collection
       (snd (create_announcement
               (AnnouncementCreate.make "Fair" "Science fair" None
                  (Naive 60) None)
               "mchen" sample_world)))
  ∧ Forall (λ d, well_formed d = true)
      (announcements_collection
         (snd (update_announcement "aaaaaaaaaaaaaaaaaaaaaaaa"
                 (sample_patch (Some "Assembly") None None None None)
                 "mchen" sample_world)))
  ∧ Forall (λ d, well_formed d = true)
      (announcements_collection
         (snd (delete_announcement "aaaaaaaaaaaaaaaaaaaaaaaa" "mchen"
                 sample_world))).
Proof.
  apply (handlers_keep_well_formed sample_world "mchen"
           "aaaaaaaaaaaaaaaaaaaaaaaa").
  decide_closed.
Defined.

(** ** What the handlers never touch, and how they answer *)

Lemma keeps_teachers_bind {A B : Type} (m : M A) (f : A → M B) :
  keeps_teachers m → (∀ a, keeps_teachers (f a)) → keeps_teachers (m ≫= f).
Proof.
  intros Hm Hf w. rewrite run_bind. specialize (Hm w).
  destruct (m w) as [[a|s d|e] w']; cbn [snd] in *; [|done..].
  by rewrite Hf.
Qed.

Lemma keeps_teachers_reject_when (test : option bool) (status_code : Z)
    (detail : string) :
  keeps_teachers (reject_when test status_code detail).
Proof. by destruct test as [[]|]. Qed.

Lemma keeps_teachers_update_one (q : Mongo.query) (upd : pydoc) :
  keeps_teachers (announcements_update_one q upd).
Proof.
  intros w. unfold announcements_update_one.
  by destruct (Mongo.update_one _ _ _).
Qed.

Lemma keeps_teachers_delete_one (q : Mongo.query) :
  keeps_teachers (announcements_delete_one q).
Proof.
  intros w. unfold announcements_delete_one.
  by destruct (Mongo.delete_one _ _).
Qed.

Lemma keeps_teachers_mapM (isoformat : ascii → Z → string) (l : list doc) :
  keeps_teachers
    (mapM (λ announcement, lift (serialize isoformat announcement)) l).
Proof. intros w. by rewrite mapM_serialize. Qed.

Lemma frame_mapM (isoformat : ascii → Z → string) (l : list doc) :
  frame (mapM (λ announcement, lift (serialize isoformat announcement)) l).
Proof. intros w. by rewrite mapM_serialize. Qed.

Ltac keeps_step lemma_bind :=
  first
    [ apply lemma_bind; [|intros ?]
    | match goal with
      | |- _ (if ?b then _ else _) => destruct b
      | |- _ (match ?x with _ => _ end) => destruct x
      end
    | apply keeps_teachers_reject_when
    | apply keeps_teachers_update_one
    | apply keeps_teachers_delete_one
    | apply keeps_teachers_mapM
    | apply frame_mapM
    | apply frame_reject_when
    | done ].

(** X12: no handler ever writes to the Teacher Directory, and the listing
    writes to no collection at all, whatever the request and however the
    handler ends. *)
Theorem handlers_keep_directory (isoformat : ascii → Z → string)
    (active_only : bool) (requester : option string)
    (a : AnnouncementCreate.t) (patch : AnnouncementUpdate.t)
    (id username : string) :
  keeps_teachers (get_announcements isoformat active_only requester)
  ∧ frame (get_announcements isoformat active_only requester)
  ∧ keeps_teachers (create_announcement a username)
  ∧ keeps_teachers (update_announcement id patch username)
  ∧ keeps_teachers (delete_announcement id username).
Proof.
  split_and!.
  - unfold get_announcements. repeat keeps_step @keeps_teachers_bind.
  - unfold get_announcements. repeat keeps_step @frame_bind.
  - unfold create_announcement, verify_teacher.
    repeat keeps_step @keeps_teachers_bind.
  - unfold update_announcement, verify_teacher.
    repeat keeps_step @keeps_teachers_bind.
  - unfold delete_announcement, verify_teacher.
    repeat keeps_step @keeps_teachers_bind.
Qed.

(** X13: Create answers a request whose dates carry no UTC offset by
    returning or with status 401 or 400, and Delete answers any request by
    returning or with status 401, 400 or 404.  Create never reaches its
    status 500 (an inserted identifier is never false).  The one exception
    that escapes Create is the [TypeError] of comparing a date that carries
    a UTC offset, raised for a known teacher before anything is stored;
    none escapes Delete. *)
Theorem create_delete_answers (a : AnnouncementCreate.t)
    (id username : string) (w : World) :
  (naive_dates (AnnouncementCreate.start_date a)
     (AnnouncementCreate.expiration_date a) →
   answers [401; 400]%Z (fst (create_announcement a username w)))
  ∧ (∀ status_code detail,
       fst (create_announcement a username w)
       = HTTPException status_code detail →
       status_code = 401%Z ∨ status_code = 400%Z)
  ∧ (∀ exn,
       fst (create_announcement a username w) = Uncaught exn →
       exn = "TypeError"
       ∧ ¬ naive_dates (AnnouncementCreate.start_date a)
             (AnnouncementCreate.expiration_date a)
       ∧ is_teacher w username
       ∧ announcements_collection (snd (create_announcement a username w))
         = announcements_collection w)
  ∧ answers [401; 400; 404]%Z (fst (delete_announcement id username w)).
Proof.
  split_and!.
  - intros [He Hs]. destruct (decide (is_teacher w username)) as [Ht|Ht].
    + rewrite create_announcement_run by done. unfold created.
      destruct (AnnouncementCreate.expiration_date a) as [e|]; [|done].
      destruct (_ <=? _)%Z; [cbn; tauto|].
      destruct (AnnouncementCreate.start_date a) as [[s|]|];
        [|done|cbn; tauto].
      destruct (_ <=? _)%Z; cbn; tauto.
    + unfold create_announcement.
      rewrite run_bind, verify_teacher_unknown by done. cbn. tauto.
  - intros status_code detail.
    destruct (decide (is_teacher w username)) as [Ht|Ht].
    + rewrite create_announcement_run by done. unfold created.
      destruct (AnnouncementCreate.expiration_date a) as [e|]; [|done].
      destruct (_ <=? _)%Z; [intros [= <- _]; by right|].
      destruct (AnnouncementCreate.start_date a) as [[s|]|];
        [|done|done].
      destruct (_ <=? _)%Z; [intros [= <- _]; by right | done].
    + unfold create_announcement.
      rewrite run_bind, verify_teacher_unknown by done.
      intros [= <- _]. by left.
  - intros exn. destruct (decide (is_teacher w username)) as [Ht|Ht].
    + rewrite create_announcement_run by done. unfold created.
      destruct (AnnouncementCreate.expiration_date a) as [e|].
      2:{ intros [= <-]. split_and!; [done| |done|done]. by intros [? _]. }
      destruct (_ <=? _)%Z; [done|].
      destruct (AnnouncementCreate.start_date a) as [[s|]|]; [| |done].
      * by destruct (_ <=? _)%Z.
      * intros [= <-]. split_and!; [done| |done|done]. by intros [_ ?].
    + unfold create_announcement.
      by rewrite run_bind, verify_teacher_unknown.
  - unfold delete_announcement.
    destruct (decide (is_teacher w username)) as [Ht|Ht].
    + rewrite run_bind, verify_teacher_known by done.
      destruct (Bson.ObjectId id) as [oid|]; [|cbn; tauto]. run.
      destruct (Mongo.delete_one _ _) as [coll n].
      destruct (n =? 0)%Z; cbn; tauto.
    + rewrite run_bind, verify_teacher_unknown by done. cbn. tauto.
Qed.

Lemma create_delete_answers_witness :
  answers [401; 400]%Z
    (fst (create_announcement
            (AnnouncementCreate.make "Late" "Too late" None (Naive 40) None)
            "mchen" sample_world)).
Proof.
  apply (create_delete_answers
           (AnnouncementCreate.make "Late" "Too late" None (Naive 40) None)
           "aaaaaaaaaaaaaaaaaaaaaaaa" "mchen" sample_world).
  by split.
Defined.

(** The effective dates of a patch without offsets, over a well-formed
    document, carry no offset. *)
Lemma effective_dates_naive (patch : AnnouncementUpdate.t) (existing : doc) :
  well_formed existing = true →
  naive_patch patch →
  ∃ e, effective_expiration patch existing = Some (Naive e)
       ∧ from_option is_naive true (effective_start patch existing) = true.
Proof.
  intros Hwf [Hs He].
  destruct (well_formed_dates existing Hwf) as [[e0 He0] _].
  unfold effective_expiration, effective_start, expiration_of, start_of.
  rewrite He0.
  destruct (AnnouncementUpdate.expiration_date patch) as [[e|]|];
    [exists e|done|exists e0].
  all: split; [done|].
  all: destruct (AnnouncementUpdate.start_date patch) as [[s|]|];
    try done.
  all: by destruct (existing !! "start_date") as [[]|].
Qed.

(** X14: over a store of well-formed announcements, Update answers a patch
    whose dates carry no UTC offset by returning or with status 401, 400,
    404 or 500, and the listing answers by returning or with status 401.
    The one exception that escapes Update is the [TypeError] of comparing a
    patch date that carries a UTC offset, and then nothing is written; none
    escapes the listing. *)
Theorem update_list_answers (isoformat : ascii → Z → string)
    (active_only : bool) (requester : option string)
    (patch : AnnouncementUpdate.t) (id username : string) (w : World) :
  Forall (λ d, well_formed d = true) (announcements_collection w) →
  (naive_patch patch →
   answers [401; 400; 404; 500]%Z
     (fst (update_announcement id patch username w)))
  ∧ (∀ exn,
       fst (update_announcement id patch username w) = Uncaught exn →
       exn = "TypeError" ∧ ¬ naive_patch patch
       ∧ announcements_collection
           (snd (update_announcement id patch username w))
         = announcements_collection w)
  ∧ answers [401]%Z
      (fst (get_announcements isoformat active_only requester w)).
Proof.
  intros Hwf.
  assert (∀ exn,
            fst (update_announcement id patch username w) = Uncaught exn →
            exn = "TypeError" ∧ ¬ naive_patch patch
            ∧ announcements_collection
                (snd (update_announcement id patch username w))
              = announcements_collection w) as Hescapes.
  { intros exn.
    destruct (decide (is_teacher w username)) as [Ht|Ht].
    2:{ unfold update_announcement.
        by rewrite run_bind, verify_teacher_unknown. }
    destruct (Bson.ObjectId id) as [oid|] eqn:Hoid.
    2:{ unfold update_announcement.
        by rewrite run_bind, verify_teacher_known, Hoid. }
    destruct (Mongo.find_one (by_id (VOid oid)) (announcements_collection w))
      as [existing|] eqn:Hfind.
    2:{ unfold update_announcement, by_id in *.
        rewrite run_bind, verify_teacher_known, Hoid by done. run.
        by rewrite Hfind. }
    assert (well_formed existing = true) as Hex.
    { unfold by_id in Hfind. apply find_one_id_Some in Hfind as [Hin _];
        [|done].
      rewrite List.Forall_forall in Hwf. by apply Hwf. }
    rewrite (update_announcement_steps id oid patch username w existing)
      by done.
    assert (∀ out : outcome (gmap string string) * World,
              out = (Uncaught "TypeError", tick w) →
              fst out = Uncaught exn →
              exn = "TypeError"
              ∧ announcements_collection (snd out)
                = announcements_collection w) as Hend.
    { by intros out -> [= <-]. }
    assert (fst (apply_patch oid patch w) ≠ Uncaught exn) as Hwrite.
    { unfold apply_patch. destruct (bool_decide _); [done|].
      destruct (Mongo.update_one _ _ _) as [coll n].
      by destruct (n =? 0)%Z. }
    destruct (decide (naive_patch patch)) as [Hnaive|Haware].
    - destruct (effective_dates_naive patch existing Hex Hnaive)
        as (e & -> & Hs).
      destruct (_ <=? _)%Z; [done|].
      destruct (effective_start patch existing) as [[s|]|]; [|done|done].
      by destruct (_ <=? _)%Z.
    - destruct (effective_expiration patch existing) as [[e|]|].
      + destruct (_ <=? _)%Z; [done|].
        destruct (effective_start patch existing) as [[s|]|]; [| |done].
        * by destruct (_ <=? _)%Z.
        * intros H. by destruct (Hend _ eq_refl H).
      + intros H. by destruct (Hend _ eq_refl H).
      + intros H. by destruct (Hend _ eq_refl H). }
  split_and!; [|done|].
  - intros Hnaive.
    destruct (fst (update_announcement id patch username w))
      as [r|status_code detail|exn] eqn:Hout; [done| |].
    2:{ by destruct (Hescapes exn eq_refl) as (_ & ? & _). }
    revert Hout. clear Hescapes.
    destruct (decide (is_teacher w username)) as [Ht|Ht].
    2:{ unfold update_announcement.
        rewrite run_bind, verify_teacher_unknown by done.
        intros [= <- _]. cbn. tauto. }
    destruct (Bson.ObjectId id) as [oid|] eqn:Hoid.
    2:{ unfold update_announcement.
        rewrite run_bind, verify_teacher_known, Hoid by done.
        intros [= <- _]. cbn. tauto. }
    destruct (Mongo.find_one (by_id (VOid oid)) (announcements_collection w))
      as [existing|] eqn:Hfind.
    2:{ unfold update_announcement, by_id in *.
        rewrite run_bind, verify_teacher_known, Hoid by done. run.
        rewrite Hfind. intros [= <- _]. cbn. tauto. }
    assert (well_formed existing = true) as Hex.
    { unfold by_id in Hfind. apply find_one_id_Some in Hfind as [Hin _];
        [|done].
      rewrite List.Forall_forall in Hwf. by apply Hwf. }
    destruct (effective_dates_naive patch existing Hex Hnaive)
      as (e & He & Hs).
    rewrite (update_announcement_run id oid patch username w existing e)
      by done.
    unfold apply_patch.
    destruct (_ <=? _)%Z; [intros [= <- _]; cbn; tauto|].
    destruct (effective_start patch existing) as [[s|]|]; [|done|].
    + destruct (_ <=? _)%Z; [intros [= <- _]; cbn; tauto|].
      destruct (bool_decide _); [intros [= <- _]; cbn; tauto|].
      destruct (Mongo.update_one _ _ _) as [coll n].
      destruct (n =? 0)%Z; [intros [= <- _]; cbn; tauto | done].
    + destruct (bool_decide _); [intros [= <- _]; cbn; tauto|].
      destruct (Mongo.update_one _ _ _) as [coll n].
      destruct (n =? 0)%Z; [intros [= <- _]; cbn; tauto | done].
  - destruct active_only.
    + rewrite get_announcements_active.
      destruct (serialize_each_well_formed isoformat _
                  (well_formed_find_sort
                     (active_query (clock w (ticks w))) _ Hwf))
        as (result & -> & _).
      done.
    + rewrite get_announcements_all.
      destruct (whole_listing isoformat w Hwf) as (found & result & -> & _).
      destruct requester as [u|]; [|done].
      destruct (Py.truthy (VStr u) && negb (bool_decide (is_teacher w u)));
        cbn; tauto.
Qed.

Lemma update_list_answers_witness :
  answers [401; 400; 404; 500]%Z
    (fst (update_announcement "dddddddddddddddddddddddd"
            (sample_patch None None (Some (Naive 45)) None None) "mchen"
            sample_world))
  ∧ answers [401]%Z
      (fst (get_announcements sample_isoformat false (Some "mallory")
              sample_world)).
Proof.
  destruct (update_list_answers sample_isoformat false (Some "mallory")
              (sample_patch None None (Some (Naive 45)) None None)
              "dddddddddddddddddddddddd" "mchen" sample_world)
    as (Hupdate & _ & Hlist).
  - decide_closed.
  - split; [|done]. by apply Hupdate.
Defined.

(** ** Deactivating *)

Lemma Forall2_In_r {A B : Type} (R : A → B → Prop) (l : list A)
    (k : list B) (y : B) :
  Forall2 R l k → In y k → ∃ x, In x l ∧ R x y.
Proof.
  induction 1 as [|a b l k Hab Hlk IH]; [done|].
  intros [<-|Hy].
  - exists a. split; [by left | done].
  - destruct (IH Hy) as (x & Hx & Hxy). exists x. split; [by right | done].
Qed.

Lemma well_formed_id (d : doc) :
  well_formed d = true → ∃ o, d !! "_id" = Some (VOid o).
Proof.
  unfold well_formed. rewrite !andb_true_iff.
  intros [[[[[[[H _] _] _] _] _] _] _].
  destruct (d !! "_id") as [[]|]; try done. by eexists.
Qed.

(** X15: where identifiers are unique and the store is well-formed, after
    a successful Update that sets is_active to false the active listing
    still answers, and no record in it has the updated announcement's
    identifier, whatever its dates. *)
Theorem deactivated_is_unlisted (isoformat : ascii → Z → string)
    (id oid : string) (patch : AnnouncementUpdate.t) (username : string)
    (w : World) (requester : option string) :
  Forall (λ d, well_formed d = true) (announcements_collection w) →
  unique_ids (announcements_collection w) →
  Bson.ObjectId id = Some oid →
  AnnouncementUpdate.is_active patch = Some false →
  fst (update_announcement id patch username w)
  = Return (<["message" := "Announcement updated successfully"]> ∅) →
  let w' := snd (update_announcement id patch username w) in
  ∃ result,
    get_announcements isoformat true requester w' = (Return result, tick w')
    ∧ ∀ r, In r result → r !! "id" ≠ Some (VStr oid).
Proof.
  intros Hwf Huniq Hoid Hoff Hsucc w'.
  destruct (update_announcement_updated id patch username w I)
    as [[_ Hfail] | (oid' & existing & pre & post & Hoid' & Hid & Hold
                     & Hnew)].
  { by destruct (Hfail _ Hsucc). }
  assert (oid' = oid) as -> by congruence. fold w' in Hnew.
  set (u := Mongo.encode_doc (build_update_doc patch) ∪ existing) in *.
  rewrite Hold in Hwf, Huniq.
  assert (well_formed u = true) as Hu.
  { apply well_formed_set_fields.
    apply Forall_app in Hwf as [_ Hrest]. by inversion Hrest. }
  assert (Forall (λ d, well_formed d = true) (announcements_collection w'))
    as Hwf'.
  { rewrite Hnew. apply Forall_app in Hwf as [Hpre Hrest].
    inversion Hrest; subst. apply Forall_app. split; [done|].
    by constructor. }
  assert (∀ now, currently_active now u = false) as Hinactive.
  { intros now. unfold currently_active. subst u.
    rewrite lookup_set_fields.
    assert (patch_field patch "is_active" = Some (VBool false)) as ->.
    { unfold patch_field. repeat (case_bool_decide; [done|]).
      by rewrite bool_decide_eq_true_2, Hoff. }
    done. }
  rewrite get_announcements_active.
  pose proof (well_formed_find_sort
                (active_query (clock w' (ticks w'))) _ Hwf') as Hfound.
  destruct (serialize_each_well_formed isoformat _ Hfound)
    as (result & -> & Hall).
  exists result. split; [done|]. intros r Hr Hrid.
  destruct (Forall2_In_r _ _ _ _ Hall Hr) as (d & Hd & Hser).
  eapply Permutation_in in Hd; [|apply sort_permutation].
  rewrite find_active in Hd. apply filter_In in Hd as [Hd Hactive].
  rewrite Hnew in Hd.
  assert (In d (pre ++ post)) as Hd'.
  { apply in_app_or in Hd as [Hd|[<-|Hd]].
    - apply in_or_app. by left.
    - by rewrite Hinactive in Hactive.
    - apply in_or_app. by right. }
  pose proof (unique_ids_split pre post existing _ Huniq Hid d Hd') as Hne.
  assert (well_formed d = true) as Hdwf.
  { rewrite List.Forall_forall in Hwf. apply Hwf.
    apply in_app_or in Hd' as [?|?]; apply in_or_app;
      [by left | right; by right]. }
  destruct (well_formed_id d Hdwf) as [o Ho].
  pose proof (serialize_spec isoformat d) as Hspec.
  rewrite Ho, Hser in Hspec.
  destruct (forallb _ date_fields); [|done].
  destruct Hspec as (r' & [= <-] & Hid' & _).
  rewrite Hid' in Hrid. cbn in Hrid. congruence.
Qed.

Lemma deactivated_is_unlisted_witness :
  let w' :=
    snd (update_announcement "aaaaaaaaaaaaaaaaaaaaaaaa"
           (sample_patch None None None None (Some false)) "mchen"
           sample_world) in
  ∃ result,
    get_announcements sample_isoformat true None w'
    = (Return result, tick w')
    ∧ ∀ r, In r result → r !! "id" ≠ Some (VStr "aaaaaaaaaaaaaaaaaaaaaaaa").
Proof.
  apply (deactivated_is_unlisted sample_isoformat
           "aaaaaaaaaaaaaaaaaaaaaaaa" "aaaaaaaaaaaaaaaaaaaaaaaa"
           (sample_patch None None None None (Some false)) "mchen"
           sample_world None).
  - decide_closed.
  - decide_closed.
  - vm_compute; reflexivity.
  - reflexivity.
  - vm_compute; reflexivity.
Defined.

Lemma serialize_outcome_witness :
  ∃ r,
    serialize sample_isoformat
      (sample_announcement "bbbbbbbbbbbbbbbbbbbbbbbb" "B" (VDate 20) 100 true
         7)
    = Return r
    ∧ r !! "id" = Some (VStr "bbbbbbbbbbbbbbbbbbbbbbbb")
    ∧ r !! "_id" = None
    ∧ r !! "title" = Some (VStr "B").
Proof.
  destruct (serialize_outcome sample_isoformat
              (sample_announcement "bbbbbbbbbbbbbbbbbbbbbbbb" "B" (VDate 20)
                 100 true 7))
    as (_ & _ & H).
  destruct (H (VOid "bbbbbbbbbbbbbbbbbbbbbbbb"))
    as (r & Hr & Hid & Hnone & _ & Hrest).
  - vm_compute; reflexivity.
  - vm_compute; reflexivity.
  - exists r. split_and!; [done..|].
    rewrite Hrest; [vm_compute; reflexivity | | done | done].
    cbn. intuition discriminate.
Defined.
